(** * PagerMaid-Pyro plugin manager: [pagermaid/common/plugin.py]

    A shallow embedding of the plugin lifecycle manager (the classes
    [LocalPlugin], [RemotePlugin] and [PluginManager]) together with the
    properties of its update policy, its file transitions and its ledger.

    Modelling choices, all taken from the source:
    - a Python [float] is an IEEE-754 value, [spec_float] of the Standard
      Library (signed zeros, infinities and NaN included);
    - [Optional[float]] is [option spec_float]; [None] is the JSON [null];
    - the dictionaries [version_map] and [remote_version_map] are [gmap]s
      keyed by plugin name;
    - the [plugins] directory is a flat finite map from file name to file
      content, with [version.json] kept apart as an already parsed document:
      the directory exists and its ledger, when there is one, parses;
    - a path is the string the code formats, [name.py] or
      [name.py.disabled], below the plugin directory;
    - a removal or a write can be refused by the operating system, for a
      reason other than the absence of the file (a NUL in the name, a name
      that is too long, a directory in the way, a missing permission):
      which paths it refuses is part of the disk;
    - Python exceptions are an outcome of every effectful call: the code
      runs in a state monad over the manager object and the disk whose
      result is either a returned value or a raised exception. *)

From Stdlib Require Import ZArith String.
From Stdlib Require Import Floats.SpecFloat.
From stdpp Require Import base option list strings gmap fin_maps.

Local Open Scope string_scope.

(** ** Python values *)

(** [0.0], the constant the source compares against. *)
Definition float_zero : spec_float := S754_zero false.

(** Python's truth value testing, [bool(x)], as used by [if x] and by the
    walrus tests [if v := ...]. *)
Class Truthy (A : Type) := truthy : A → bool.

(** [bool(x)] for a float is [x != 0.0]: both zeros are falsy, NaN is truthy. *)
#[global] Instance float_truthy : Truthy spec_float :=
  λ x, negb (SFeqb x float_zero).

(** [bool(None)] is [False]; otherwise the value decides. *)
#[global] Instance option_truthy {A} `{Truthy A} : Truthy (option A) :=
  λ o, match o with Some x => truthy x | None => false end.

(** [dict.get(key)]: a missing key and a stored [None] both read as [None]. *)
Definition dict_get {V} (d : gmap string (option V)) (key : string) : option V :=
  match d !! key with
  | Some v => v
  | None => None
  end.

(** [key in d]. *)
Definition dict_contains {V} (d : gmap string V) (key : string) : bool :=
  bool_decide (is_Some (d !! key)).

(** [s.endswith(suffix)]. *)
Definition endswith (s suffix : string) : bool :=
  (String.length suffix <=? String.length s)%nat
  && String.eqb
       (substring (String.length s - String.length suffix) (String.length suffix) s)
       suffix.

(** [s[:-k]] for a positive literal [k]: everything but the last [k]
    characters, the empty string when [s] is shorter. *)
Definition drop_tail (k : nat) (s : string) : string :=
  substring 0 (String.length s - k) s.

(** ** Records: [LocalPlugin] and [RemotePlugin] *)

Record LocalPlugin := mkLocalPlugin {
  name : string;
  status : bool;
  installed : bool;
  version : option spec_float
}.

(** [RemotePlugin(LocalPlugin)]: the inherited fields and the catalog's own. *)
Record RemotePlugin := mkRemotePlugin {
  as_local :> LocalPlugin;
  section : string;
  maintainer : string;
  size : string;
  supported : bool;
  des : string
}.

(** [plugins_path / f"{self.name}.py"], relative to the plugin directory. *)
Definition normal_path (p : LocalPlugin) : string := name p +:+ ".py".

(** [plugins_path / f"{self.name}.py.disabled"]. *)
Definition disabled_path (p : LocalPlugin) : string := name p +:+ ".py.disabled".

(** One object of the catalog's list array, as the [RemotePlugin]
    constructor reads its keywords: [version] is optional, [installed]
    takes its default. *)
Record descriptor := mkDescriptor {
  d_name : string;
  d_version : option spec_float;
  d_section : string;
  d_maintainer : string;
  d_size : string;
  d_supported : bool;
  d_des : string
}.

(** ** The manager object and the disk *)

(** A ledger document: plugin name to version, [None] for JSON [null]. *)
Abbreviation ledger := (gmap string (option spec_float)).

Record PluginManager := mkPluginManager {
  version_map : ledger;
  remote_version_map : ledger;
  plugins : list LocalPlugin;
  remote_plugins : list RemotePlugin
}.

(** [PluginManager.__init__]. *)
Definition PluginManager_init : PluginManager :=
  {| version_map := ∅; remote_version_map := ∅; plugins := []; remote_plugins := [] |}.

(** The exceptions the code meets. *)
Inductive exn :=
  | FileNotFoundError
  | FileExistsError
  | IsADirectoryError
  | PermissionError
  | ValueError
  | OSError
  | TransportError.

#[global] Instance exn_eq_dec : EqDecision exn.
Proof. solve_decision. Defined.

(** Why [os.remove] fails on a path, when it is not for the absence of the
    file: the name holds a NUL, it is too long, the path is a directory, or
    the permission is missing. *)
Inductive refusal :=
  | EmbeddedNul
  | NameTooLong
  | IsDirectory
  | NotPermitted.

(** The exception each refusal raises. *)
Definition refusal_exn (r : refusal) : exn :=
  match r with
  | EmbeddedNul => ValueError
  | NameTooLong => OSError
  | IsDirectory => IsADirectoryError
  | NotPermitted => PermissionError
  end.

(** The [plugins] directory: its plugin files by name, [version.json] when
    it exists, and what the operating system refuses: the paths whose
    removal fails for another reason than absence, and the paths that cannot
    be opened for writing, each with the exception raised. *)
Record disk := mkDisk {
  files : gmap string string;
  version_json : option ledger;
  remove_refused : string → option refusal;
  write_refused : string → option exn
}.

Record state := mkState {
  self : PluginManager;
  fs : disk
}.

Definition set_version_map (v : ledger) (m : PluginManager) : PluginManager :=
  {| version_map := v; remote_version_map := remote_version_map m;
     plugins := plugins m; remote_plugins := remote_plugins m |}.

Definition set_remote_version_map (v : ledger) (m : PluginManager) : PluginManager :=
  {| version_map := version_map m; remote_version_map := v;
     plugins := plugins m; remote_plugins := remote_plugins m |}.

Definition set_plugins (l : list LocalPlugin) (m : PluginManager) : PluginManager :=
  {| version_map := version_map m; remote_version_map := remote_version_map m;
     plugins := l; remote_plugins := remote_plugins m |}.

Definition set_remote_plugins (l : list RemotePlugin) (m : PluginManager) : PluginManager :=
  {| version_map := version_map m; remote_version_map := remote_version_map m;
     plugins := plugins m; remote_plugins := l |}.

Definition set_files (f : gmap string string) (d : disk) : disk :=
  {| files := f; version_json := version_json d;
     remove_refused := remove_refused d; write_refused := write_refused d |}.

Definition set_version_json (v : option ledger) (d : disk) : disk :=
  {| files := files d; version_json := v;
     remove_refused := remove_refused d; write_refused := write_refused d |}.

(** ** Exceptions and the state monad *)

Inductive outcome (A : Type) :=
  | Return (a : A)
  | Raise (e : exn).
Arguments Return {A} a.
Arguments Raise {A} e.

(** A computation reads and writes the state; what it wrote before raising
    stays written. *)
Definition M (A : Type) : Type := state → outcome A * state.

Definition ret {A} (a : A) : M A := λ s, (Return a, s).

Definition raise {A} (e : exn) : M A := λ s, (Raise e, s).

Definition bind {A B} (c : M A) (k : A → M B) : M B :=
  λ s, match c s with
       | (Return a, s') => k a s'
       | (Raise e, s') => (Raise e, s')
       end.

Declare Scope py_scope.
Delimit Scope py_scope with py.
Notation "x <- c ;; k" := (bind c (λ x, k))
  (at level 100, c at next level, right associativity) : py_scope.
Notation "c ;; k" := (bind c (λ _, k))
  (at level 100, right associativity) : py_scope.
Local Open Scope py_scope.

Definition get_self : M PluginManager := λ s, (Return (self s), s).

Definition get_fs : M disk := λ s, (Return (fs s), s).

Definition modify_self (f : PluginManager → PluginManager) : M unit :=
  λ s, (Return tt, {| self := f (self s); fs := fs s |}).

Definition modify_fs (f : disk → disk) : M unit :=
  λ s, (Return tt, {| self := self s; fs := f (fs s) |}).

(** [try: c  except Exception: h]. *)
Definition try_except {A} (c : M A) (h : M A) : M A :=
  λ s, match c s with
       | (Return a, s') => (Return a, s')
       | (Raise _, s') => h s'
       end.

(** [with contextlib.suppress(e): c]: only the named exception is swallowed. *)
Definition suppress (e : exn) (c : M unit) : M unit :=
  λ s, match c s with
       | (Return a, s') => (Return a, s')
       | (Raise e', s') => if decide (e' = e) then (Return tt, s') else (Raise e', s')
       end.

(** [for x in l: body(x)]. *)
Fixpoint for_each {A} (l : list A) (body : A → M unit) : M unit :=
  match l with
  | [] => ret tt
  | x :: l' => body x ;; for_each l' body
  end.

(** [[f(x) for x in l]] with an effectful [f]. *)
Fixpoint map_M {A B} (f : A → M B) (l : list A) : M (list B) :=
  match l with
  | [] => ret []
  | x :: l' => y <- f x ;; ys <- map_M f l' ;; ret (y :: ys)
  end.

(** ** The operating system and the HTTP client *)

(** [os.rename] onto an existing file replaces it on POSIX and raises
    [FileExistsError] on Windows. *)
Inductive platform :=
  | Posix
  | Windows.

(** What [client.get] returns: [status_code] and [text]. *)
Record response := mkResponse {
  status_code : Z;
  text : string
}.

(** [os.path.exists(plugins_path / path)] for a plugin file. *)
Definition os_path_exists (path : string) : M bool :=
  d <- get_fs ;; ret (bool_decide (is_Some (files d !! path))).

(** [os.remove(plugins_path / path)]: refused by the operating system, or
    [FileNotFoundError] when there is no such file. *)
Definition os_remove (path : string) : M unit :=
  d <- get_fs ;;
  match remove_refused d path with
  | Some r => raise (refusal_exn r)
  | None =>
      match files d !! path with
      | Some _ => modify_fs (set_files (delete path (files d)))
      | None => raise FileNotFoundError
      end
  end.

(** [open(plugins_path / path, mode="wb")] followed by [f.write(data)]:
    the file is created or truncated, unless the path cannot be opened. *)
Definition open_write (path data : string) : M unit :=
  d <- get_fs ;;
  match write_refused d path with
  | Some e => raise e
  | None => modify_fs (set_files (<[path := data]> (files d)))
  end.

(** [os.listdir('plugins')], the plugin directory being there: every plugin
    file, and [version.json] when it exists, in the order the directory
    yields them. *)
Definition os_listdir : M (list string) :=
  d <- get_fs ;;
  ret ((map_to_list (files d)).*1
         ++ match version_json d with Some _ => ["version.json"] | None => [] end)%list.

Section Manager.

(** The platform the host runs on, [Config.GIT_SOURCE], and [client.get]:
    the transport is an opaque collaborator, it answers or raises. *)
Variable os : platform.
Variable GIT_SOURCE : string.
Variable client_get : string → outcome response.

(** [os.rename(plugins_path / src, plugins_path / dst)]. *)
Definition os_rename (src dst : string) : M unit :=
  d <- get_fs ;;
  match files d !! src with
  | None => raise FileNotFoundError
  | Some data =>
      match files d !! dst, os with
      | Some _, Windows => raise FileExistsError
      | _, _ => modify_fs (set_files (<[dst := data]> (delete src (files d))))
      end
  end.

(** *** [LocalPlugin] *)

(** [LocalPlugin.remove]. *)
Definition LocalPlugin_remove (p : LocalPlugin) : M unit :=
  suppress FileNotFoundError (os_remove (normal_path p)) ;;
  suppress FileNotFoundError (os_remove (disabled_path p)).

(** [LocalPlugin.enable]. *)
Definition LocalPlugin_enable (p : LocalPlugin) : M bool :=
  try_except
    (os_rename (disabled_path p) (normal_path p) ;; ret true)
    (ret false).

(** [LocalPlugin.disable]. *)
Definition LocalPlugin_disable (p : LocalPlugin) : M bool :=
  try_except
    (os_rename (normal_path p) (disabled_path p) ;; ret true)
    (ret false).

(** *** [RemotePlugin] *)

(** [RemotePlugin.install]. *)
Definition RemotePlugin_install (p : RemotePlugin) : M bool :=
  html <- (λ s, (client_get (GIT_SOURCE +:+ name p +:+ "/main.py"), s)) ;;
  if (status_code html =? 200)%Z then
    LocalPlugin_remove p ;;
    open_write (name p +:+ ".py") (text html) ;;
    ret true
  else ret false.

(** *** [PluginManager] *)

(** [load_local_version_map]: [version.json], when it exists, is taken as
    [json.load] returns it from a document that parses, an object of numbers
    and nulls. *)
Definition load_local_version_map : M unit :=
  d <- get_fs ;;
  match version_json d with
  | None => ret tt
  | Some doc => modify_self (set_version_map doc)
  end.

(** [save_local_version_map]: the whole document is overwritten, unless
    [version.json] cannot be opened. *)
Definition save_local_version_map : M unit :=
  m <- get_self ;;
  d <- get_fs ;;
  match write_refused d "version.json" with
  | Some e => raise e
  | None => modify_fs (set_version_json (Some (version_map m)))
  end.

(** [get_local_version]: [float(data) if data else None]. *)
Definition get_local_version (m : PluginManager) (n : string) : option spec_float :=
  let data := dict_get (version_map m) n in
  if truthy data then data else None.

(** [set_local_version]. *)
Definition set_local_version (n : string) (v : option spec_float) : M unit :=
  modify_self (λ m, set_version_map (<[n := v]> (version_map m)) m) ;;
  save_local_version_map.

(** [get_plugin_install_status]. *)
Definition get_plugin_install_status (m : PluginManager) (n : string) : bool :=
  dict_contains (version_map m) n.

(** [get_plugin_load_status]. *)
Definition get_plugin_load_status (n : string) : M bool :=
  os_path_exists (n +:+ ".py").

(** [get_local_plugin]: [next(filter(lambda x: x.name == name, self.plugins), None)]. *)
Definition get_local_plugin (m : PluginManager) (n : string) : option LocalPlugin :=
  List.find (λ x, String.eqb (name x) n) (plugins m).

(** [get_remote_plugin]. *)
Definition get_remote_plugin (m : PluginManager) (n : string) : option RemotePlugin :=
  List.find (λ x : RemotePlugin, String.eqb (name x) n) (remote_plugins m).

(** [remove_plugin]. *)
Definition remove_plugin (n : string) : M bool :=
  m <- get_self ;;
  match get_local_plugin m n with
  | Some plugin =>
      LocalPlugin_remove plugin ;;
      m <- get_self ;;
      (if dict_contains (version_map m) n then
         modify_self (set_version_map (delete n (version_map m))) ;;
         save_local_version_map
       else ret tt) ;;
      ret true
  | None => ret false
  end.

(** [enable_plugin]. *)
Definition enable_plugin (n : string) : M bool :=
  m <- get_self ;;
  match get_local_plugin m n with
  | Some plugin => LocalPlugin_enable plugin
  | None => ret false
  end.

(** [disable_plugin]. *)
Definition disable_plugin (n : string) : M bool :=
  m <- get_self ;;
  match get_local_plugin m n with
  | Some plugin => LocalPlugin_disable plugin
  | None => ret false
  end.

(** The body of the loop of [load_local_plugins], for one directory entry. *)
Definition load_local_plugins_body (plugin : string) : M unit :=
  if endswith plugin ".py" || endswith plugin ".py.disabled" then
    let plugin :=
      if endswith plugin ".py.disabled" then drop_tail 12 plugin
      else drop_tail 3 plugin in
    m <- get_self ;;
    loaded <- get_plugin_load_status plugin ;;
    modify_self (set_plugins
      (plugins m ++ [ {| name := plugin;
                         installed := get_plugin_install_status m plugin;
                         status := loaded;
                         version := get_local_version m plugin |} ])%list)
  else ret tt.

(** [load_local_plugins]. *)
Definition load_local_plugins : M (list LocalPlugin) :=
  load_local_version_map ;;
  modify_self (set_plugins []) ;;
  entries <- os_listdir ;;
  for_each entries load_local_plugins_body ;;
  m <- get_self ;;
  ret (plugins m).

(** [load_remote_plugins], past the cache decorator and the transport:
    [plugin_list] is the list array of the fetched JSON document. *)
Definition load_remote_plugins (plugin_list : list descriptor) : M (list RemotePlugin) :=
  plugins <- map_M (λ plugin,
               loaded <- get_plugin_load_status (d_name plugin) ;;
               ret {| as_local := {| name := d_name plugin; status := loaded;
                                     installed := false; version := d_version plugin |};
                      section := d_section plugin; maintainer := d_maintainer plugin;
                      size := d_size plugin; supported := d_supported plugin;
                      des := d_des plugin |}) plugin_list ;;
  modify_self (set_remote_plugins plugins) ;;
  modify_self (set_remote_version_map ∅) ;;
  for_each plugins (λ plugin : RemotePlugin,
    modify_self (λ m, set_remote_version_map
                        (<[name plugin := version plugin]> (remote_version_map m)) m)) ;;
  ret plugins.

(** [plugin_need_update]. *)
Definition plugin_need_update (m : PluginManager) (n : string) : bool :=
  match get_local_version m n with
  | Some local_version =>
      if truthy local_version then
        if SFeqb local_version float_zero then false
        else
          match dict_get (remote_version_map m) n with
          | Some remote_version =>
              if truthy remote_version then SFltb local_version remote_version
              else false
          | None => false
          end
      else false
  | None => false
  end.

(** [install_remote_plugin]. *)
Definition install_remote_plugin (n : string) : M bool :=
  m <- get_self ;;
  match get_remote_plugin m n with
  | Some plugin =>
      ok <- RemotePlugin_install plugin ;;
      if ok then set_local_version n (version plugin) ;; ret true
      else ret false
  | None => ret false
  end.

(** [update_remote_plugin]. *)
Definition update_remote_plugin (n : string) : M bool :=
  m <- get_self ;;
  if plugin_need_update m n then install_remote_plugin n else ret false.

(** The loop of [update_all_remote_plugin] over [self.remote_plugins]. *)
Fixpoint update_all_loop (l updated_plugins : list RemotePlugin) : M (list RemotePlugin) :=
  match l with
  | [] => ret updated_plugins
  | i :: l' =>
      ok <- update_remote_plugin (name i) ;;
      update_all_loop l' (if ok then updated_plugins ++ [i] else updated_plugins)%list
  end.

(** [update_all_remote_plugin]. *)
Definition update_all_remote_plugin : M (list RemotePlugin) :=
  m <- get_self ;;
  update_all_loop (remote_plugins m) [].

End Manager.

(** ** Observations used by the properties *)

(** The active/disabled file pair of a plugin: what each path holds. *)
Definition file_pair (p : LocalPlugin) (s : state) : option string * option string :=
  (files (fs s) !! normal_path p, files (fs s) !! disabled_path p).

(** The state a computation leaves, and what it returned. *)
Definition exec {A} (c : M A) (s : state) : state := (c s).2.

Definition result {A} (c : M A) (s : state) : outcome A := (c s).1.

(** A bare record for a name, as the manager's lookups see it. *)
Definition plugin_named (n : string) : LocalPlugin :=
  {| name := n; status := false; installed := false; version := None |}.


(** The URL [RemotePlugin.install] downloads from. *)
Definition source_url (GIT_SOURCE n : string) : string :=
  GIT_SOURCE +:+ n +:+ "/main.py".

(** The plugin name a directory entry stands for, when it is a plugin file. *)
Definition entry_name (e : string) : option string :=
  if endswith e ".py" || endswith e ".py.disabled" then
    Some (if endswith e ".py.disabled" then drop_tail 12 e else drop_tail 3 e)
  else None.

(** The record [load_local_plugins] builds for a name. *)
Definition local_record (m : PluginManager) (d : disk) (n : string) : LocalPlugin :=
  {| name := n;
     status := bool_decide (is_Some (files d !! (n +:+ ".py")));
     installed := get_plugin_install_status m n;
     version := get_local_version m n |}.

(** The directory listing, as [os_listdir] returns it. *)
Definition listing (d : disk) : list string :=
  ((map_to_list (files d)).*1
     ++ match version_json d with Some _ => ["version.json"] | None => [] end)%list.

(** The manager after [load_local_version_map]. *)
Definition reloaded (s : state) : PluginManager :=
  match version_json (fs s) with
  | Some doc => set_version_map doc (self s)
  | None => self s
  end.

(** The record [load_remote_plugins] builds for a catalog descriptor. *)
Definition remote_record (d : disk) (x : descriptor) : RemotePlugin :=
  {| as_local := {| name := d_name x;
                    status := bool_decide (is_Some (files d !! (d_name x +:+ ".py")));
                    installed := false;
                    version := d_version x |};
     section := d_section x; maintainer := d_maintainer x; size := d_size x;
     supported := d_supported x; des := d_des x |}.

(** The dictionary the loop over the fetched records fills, entry by entry:
    a later record of the same name overwrites an earlier one. *)
Definition versions_of (ps : list RemotePlugin) (acc : ledger) : ledger :=
  foldl (λ acc (p : RemotePlugin), <[name p := version p]> acc) acc ps.

(** ** Concrete values for the scenarios *)

(** The floats [1.0], [2.0] and [-1.0] in binary64. *)
Definition float_1_0 : spec_float := S754_finite false 4503599627370496 (-52).

Definition float_2_0 : spec_float := S754_finite false 4503599627370496 (-51).

Definition float_neg_1_0 : spec_float := S754_finite true 4503599627370496 (-52).

(** A disk holding the given plugin files and ledger document, on which
    the operating system refuses nothing. *)
Definition disk_of (fl : list (string * string)) (doc : option ledger) : disk :=
  {| files := list_to_map fl; version_json := doc;
     remove_refused := λ _, None; write_refused := λ _, None |}.

(** A manager holding only a ledger and a local snapshot. *)
Definition manager_of (vm rvm : ledger) (ps : list LocalPlugin) : PluginManager :=
  {| version_map := vm; remote_version_map := rvm; plugins := ps; remote_plugins := [] |}.

(** Whether a character occurs in a string. *)
Fixpoint occurs (c : Ascii.ascii) (s : string) : bool :=
  match s with
  | EmptyString => false
  | String x s' => Ascii.eqb x c || occurs c s'
  end.

(** The NUL character, and a plugin name that holds one. *)
Definition nul : Ascii.ascii := Ascii.ascii_of_nat 0.

Definition name_with_nul : string := "a" +:+ String nul EmptyString.

(** An empty plugin directory on an operating system that refuses, as every
    one does, a path with a NUL in it: [os.remove] and [open] raise
    [ValueError]. *)
Definition state_refusing_nul : state :=
  {| self := PluginManager_init;
     fs := {| files := ∅; version_json := None;
              remove_refused := λ path, if occurs nul path then Some EmbeddedNul else None;
              write_refused := λ path, if occurs nul path then Some ValueError else None |} |}.

(** An enabled plugin [foo] on disk, its file and nothing else. *)
Definition state_foo_enabled : state :=
  {| self := PluginManager_init; fs := disk_of [("foo.py", "print(1)")] None |}.


(** A plugin [foo] that is on disk and in the ledger while the manager's
    snapshot is still empty: no [load_local_plugins] has run yet. *)
Definition state_foo_unlisted : state :=
  {| self := manager_of {[ "foo" := Some float_1_0 ]} ∅ [];
     fs := disk_of [("foo.py", "print(1)"); ("foo.py.disabled", "print(0)")]
             (Some {[ "foo" := Some float_1_0 ]}) |}.

(** An installed, enabled plugin [foo] that the snapshot lists. *)
Definition state_foo_listed : state :=
  {| self := manager_of {[ "foo" := Some float_1_0 ]} ∅
               [ {| name := "foo"; status := true; installed := true;
                    version := Some float_1_0 |} ];
     fs := disk_of [("foo.py", "print(1)")] (Some {[ "foo" := Some float_1_0 ]}) |}.

(** [state_foo_listed] after [remove_plugin("foo")]: the file and the ledger
    entry are gone, the snapshot is as it was. *)
Definition state_foo_removed : state :=
  {| self := manager_of ∅ ∅
               [ {| name := "foo"; status := true; installed := true;
                    version := Some float_1_0 |} ];
     fs := disk_of [] (Some ∅) |}.

(** The two records of the listing scenario. *)
Definition record_foo : LocalPlugin :=
  {| name := "foo"; status := true; installed := false; version := None |}.

Definition record_bar : LocalPlugin :=
  {| name := "bar"; status := false; installed := true; version := Some float_1_0 |}.

(** A directory with [foo.py] and [bar.py.disabled], and [version.json]
    holding [bar: 1.0]. *)
Definition state_listing : state :=
  {| self := PluginManager_init;
     fs := disk_of [("foo.py", "print(1)"); ("bar.py.disabled", "print(2)")]
             (Some {[ "bar" := Some float_1_0 ]}) |}.

(** The catalog record of a plugin [foo] at version [2.0]. *)
Definition remote_foo : RemotePlugin :=
  {| as_local := {| name := "foo"; status := false; installed := false;
                    version := Some float_2_0 |};
     section := "chat"; maintainer := "someone"; size := "1.0 kb";
     supported := true; des := "an example" |}.

(** A manager that has fetched a catalog listing [foo], over an empty
    plugin directory. *)
Definition state_catalog_foo : state :=
  {| self := {| version_map := ∅; remote_version_map := {[ "foo" := Some float_2_0 ]};
                plugins := []; remote_plugins := [remote_foo] |};
     fs := disk_of [] None |}.

(** [state_catalog_foo] after a successful install of [foo] whose download
    was [print(2)]. *)
Definition state_catalog_foo_installed : state :=
  {| self := {| version_map := {[ "foo" := Some float_2_0 ]};
                remote_version_map := {[ "foo" := Some float_2_0 ]};
                plugins := []; remote_plugins := [remote_foo] |};
     fs := disk_of [("foo.py", "print(2)")] (Some {[ "foo" := Some float_2_0 ]}) |}.

(** A transport that serves every source file. *)
Definition client_get_ok (url : string) : outcome response :=
  Return {| status_code := 200; text := "print(2)" |}.

(** A transport that answers 404 to everything. *)
Definition client_get_404 (url : string) : outcome response :=
  Return {| status_code := 404; text := "404: Not Found" |}.

(** The catalog descriptor of a plugin [bar] at version [2.0]. *)
Definition descriptor_bar : descriptor :=
  {| d_name := "bar"; d_version := Some float_2_0; d_section := "chat";
     d_maintainer := "someone"; d_size := "1.0 kb"; d_supported := true;
     d_des := "an example" |}.

(** A disabled, installed plugin [bar] at version [1.0], before any catalog
    has been fetched. *)
Definition state_bar_outdated : state :=
  {| self := manager_of {[ "bar" := Some float_1_0 ]} ∅ [];
     fs := disk_of [("bar.py.disabled", "print(1)")]
             (Some {[ "bar" := Some float_1_0 ]}) |}.

(** ** Statements of the specification that the code does not meet, as stated *)

(** "[plugin_need_update] is false when no local version is recorded, false
    when the recorded local version is zero, otherwise true exactly when the
    local version is below the cached remote version, false when the remote
    version is unknown, and never true on equal versions." *)
Definition need_update_policy_claim : Prop :=
  ∀ (m : PluginManager) (n : string),
    (dict_get (version_map m) n = None → plugin_need_update m n = false)
    ∧ (∀ z, dict_get (version_map m) n = Some z → SFeqb z float_zero = true →
         plugin_need_update m n = false)
    ∧ (∀ lv, dict_get (version_map m) n = Some lv → SFeqb lv float_zero = false →
         (dict_get (remote_version_map m) n = None → plugin_need_update m n = false)
         ∧ (∀ rv, dict_get (remote_version_map m) n = Some rv →
              (plugin_need_update m n = true ↔ SFltb lv rv = true)))
    ∧ (∀ lv rv, dict_get (version_map m) n = Some lv →
         dict_get (remote_version_map m) n = Some rv →
         SFeqb lv rv = true → plugin_need_update m n = false).

(** "A ledger entry of exactly zero is read back by [get_local_version] as
    zero, a present value." *)
Definition zero_version_is_present_claim : Prop :=
  ∀ (m : PluginManager) (n : string) (z : spec_float),
    version_map m !! n = Some (Some z) → SFeqb z float_zero = true →
    get_local_version m n = Some z.

(** "After [remove_plugin(name)] returns true no file and no ledger entry is
    left for [name], and a second call returns false." *)
Definition remove_plugin_twice_claim : Prop :=
  ∀ (n : string) (s s' : state),
    is_Some (get_local_plugin (self s) n) →
    remove_plugin n s = (Return true, s') →
    files (fs s') !! (n +:+ ".py") = None
    ∧ files (fs s') !! (n +:+ ".py.disabled") = None
    ∧ version_map (self s') !! n = None
    ∧ ∃ s'', remove_plugin n s' = (Return false, s'').

(** "The file state gateway never raises: in every state [enable] and
    [disable] return a boolean, and [remove] succeeds without error when the
    active or the disabled file is already absent." *)
Definition file_gateway_never_raises_claim : Prop :=
  ∀ (os : platform) (p : LocalPlugin) (s : state),
    (∃ b, result (LocalPlugin_enable os p) s = Return b)
    ∧ (∃ b, result (LocalPlugin_disable os p) s = Return b)
    ∧ (files (fs s) !! normal_path p = None
       ∨ files (fs s) !! disabled_path p = None →
       result (LocalPlugin_remove p) s = Return tt).


(** ** Further observations and scenarios *)

(** Between two states, no file changed but possibly the two of plugin [n]. *)
Definition only_touches (n : string) (s s' : state) : Prop :=
  ∀ path, path ≠ n +:+ ".py" → path ≠ n +:+ ".py.disabled" →
    files (fs s') !! path = files (fs s) !! path.


(** The plugin [bar] of the listing scenario, listed and disabled. *)
Definition state_bar_disabled : state :=
  {| self := manager_of {[ "bar" := Some float_1_0 ]} ∅ [record_bar];
     fs := disk_of [("bar.py.disabled", "print(2)")]
             (Some {[ "bar" := Some float_1_0 ]}) |}.

(** [state_bar_disabled] after [enable_plugin("bar")]: the snapshot still
    holds the record with status false. *)
Definition state_bar_enabled : state :=
  {| self := manager_of {[ "bar" := Some float_1_0 ]} ∅ [record_bar];
     fs := disk_of [("bar.py", "print(2)")] (Some {[ "bar" := Some float_1_0 ]}) |}.

(** A transport whose every call fails. *)
Definition client_get_down (url : string) : outcome response :=
  Raise TransportError.

(** [state_catalog_foo] with [foo] on disk in disabled form, at version
    [1.0] in the ledger. *)
Definition state_catalog_foo_outdated : state :=
  {| self := {| version_map := {[ "foo" := Some float_1_0 ]};
                remote_version_map := {[ "foo" := Some float_2_0 ]};
                plugins := []; remote_plugins := [remote_foo] |};
     fs := disk_of [("foo.py.disabled", "print(1)")]
             (Some {[ "foo" := Some float_1_0 ]}) |}.

(** A catalog that lists [bar] twice, first at [1.0], then at [2.0]. *)
Definition descriptor_bar_old : descriptor :=
  {| d_name := "bar"; d_version := Some float_1_0; d_section := "chat";
     d_maintainer := "someone"; d_size := "1.0 kb"; d_supported := true;
     d_des := "an older entry" |}.



(** ** Basic facts: paths, the monad, the file primitives *)

Lemma normal_ne_disabled (p : LocalPlugin) : normal_path p ≠ disabled_path p.
Proof.
  unfold normal_path, disabled_path. intros H.
  apply (inj (String.app (name p))) in H. discriminate H.
Qed.

Lemma state_eta (s : state) : {| self := self s; fs := fs s |} = s.
Proof. by destruct s. Qed.

Lemma disk_eta (d : disk) : set_files (files d) d = d.
Proof. by destruct d. Qed.

Lemma refusal_exn_not_missing (r : refusal) : refusal_exn r ≠ FileNotFoundError.
Proof. by destruct r. Qed.

(** [os.remove] under [suppress(FileNotFoundError)]: a refusal of the
    operating system propagates; otherwise the call returns and the path is
    gone, whether or not the file existed. *)
Lemma suppress_os_remove (path : string) (s : state) :
  suppress FileNotFoundError (os_remove path) s
  = match remove_refused (fs s) path with
    | Some r => (Raise (refusal_exn r), s)
    | None =>
        (Return tt,
         {| self := self s; fs := set_files (delete path (files (fs s))) (fs s) |})
    end.
Proof.
  unfold suppress, os_remove, bind, get_fs, modify_fs, raise. simpl.
  destruct (remove_refused (fs s) path) as [r|]; simpl.
  - destruct (decide (refusal_exn r = FileNotFoundError)) as [E|_]; [|done].
    by apply refusal_exn_not_missing in E.
  - destruct (files (fs s) !! path) eqn:E; simpl; [done|].
    rewrite delete_id by done.
    by rewrite disk_eta, state_eta.
Qed.

Lemma LocalPlugin_remove_eq (p : LocalPlugin) (s : state) :
  LocalPlugin_remove p s
  = match remove_refused (fs s) (normal_path p) with
    | Some r => (Raise (refusal_exn r), s)
    | None =>
        match remove_refused (fs s) (disabled_path p) with
        | Some r =>
            (Raise (refusal_exn r),
             {| self := self s;
                fs := set_files (delete (normal_path p) (files (fs s))) (fs s) |})
        | None =>
            (Return tt,
             {| self := self s;
                fs := set_files
                        (delete (disabled_path p) (delete (normal_path p) (files (fs s))))
                        (fs s) |})
        end
    end.
Proof.
  unfold LocalPlugin_remove, bind. rewrite suppress_os_remove.
  destruct (remove_refused (fs s) (normal_path p)) as [r|] eqn:E1; [done|].
  rewrite suppress_os_remove. simpl.
  by destruct (remove_refused (fs s) (disabled_path p)).
Qed.

(** When nothing is refused [LocalPlugin.remove] returns with both paths
    free. *)
Lemma LocalPlugin_remove_ok (p : LocalPlugin) (s s' : state) (u : unit) :
  LocalPlugin_remove p s = (Return u, s') →
  remove_refused (fs s) (normal_path p) = None
  ∧ remove_refused (fs s) (disabled_path p) = None
  ∧ s' = {| self := self s;
            fs := set_files
                    (delete (disabled_path p) (delete (normal_path p) (files (fs s))))
                    (fs s) |}.
Proof.
  rewrite LocalPlugin_remove_eq.
  destruct (remove_refused (fs s) (normal_path p)); [done|].
  destruct (remove_refused (fs s) (disabled_path p)); [done|].
  by intros [= _ <-].
Qed.

(** What [os.rename] does, case by case. *)
Lemma os_rename_eq (os : platform) (src dst : string) (s : state) :
  os_rename os src dst s
  = match files (fs s) !! src with
    | None => (Raise FileNotFoundError, s)
    | Some data =>
        match files (fs s) !! dst, os with
        | Some _, Windows => (Raise FileExistsError, s)
        | _, _ => (Return tt,
                   {| self := self s;
                      fs := set_files (<[dst := data]> (delete src (files (fs s)))) (fs s) |})
        end
    end.
Proof.
  unfold os_rename, bind, get_fs, modify_fs, raise. simpl.
  destruct (files (fs s) !! src); [|done].
  by destruct (files (fs s) !! dst), os.
Qed.

(** A rename wrapped in [try ... except Exception] returns a boolean. *)
Lemma try_rename_eq (os : platform) (src dst : string) (s : state) :
  try_except (os_rename os src dst ;; ret true) (ret false) s
  = match os_rename os src dst s with
    | (Return _, s') => (Return true, s')
    | (Raise _, s') => (Return false, s')
    end.
Proof.
  unfold try_except, bind, ret. by destruct (os_rename os src dst s) as [[?|?] ?].
Qed.



(** A rename that raises has written nothing. *)
Lemma os_rename_raise_unchanged (os : platform) (src dst : string) (s : state) (e : exn) :
  (os_rename os src dst s).1 = Raise e → (os_rename os src dst s).2 = s.
Proof.
  rewrite os_rename_eq.
  destruct (files (fs s) !! src); [|done].
  by destruct (files (fs s) !! dst), os.
Qed.

(** A rename whose source is missing raises. *)
Lemma os_rename_missing_source (os : platform) (src dst : string) (s : state) :
  files (fs s) !! src = None → os_rename os src dst s = (Raise FileNotFoundError, s).
Proof. intros H. by rewrite os_rename_eq, H. Qed.

(** The boolean a wrapped rename returns, and the state it leaves. *)
Lemma try_rename_total (os : platform) (src dst : string) (s : state) :
  ∃ b : bool,
    result (try_except (os_rename os src dst ;; ret true) (ret false)) s = Return b
    ∧ (b = false ↔ ∃ e, result (os_rename os src dst) s = Raise e)
    ∧ (b = false → exec (try_except (os_rename os src dst ;; ret true) (ret false)) s = s)
    ∧ (files (fs s) !! src = None → b = false).
Proof.
  unfold result, exec. rewrite try_rename_eq.
  pose proof (os_rename_raise_unchanged os src dst s) as Hun.
  pose proof (os_rename_missing_source os src dst s) as Hmiss.
  destruct (os_rename os src dst s) as [[[]|e] s']; simpl in *.
  - exists true. split; [done|]. split; [|split].
    + split; [done|]. by intros [e He].
    + done.
    + intros H. specialize (Hmiss H). discriminate Hmiss.
  - exists false. split; [done|]. split; [|split].
    + split; [by exists e|done].
    + intros _. by apply (Hun e).
    + done.
Qed.

(** ** The file state gateway *)

(** C8, as the code has it. [enable] and [disable] never raise: in every
    state they return a boolean, which is [false] exactly when the rename
    raised (in particular when its source path does not exist), and then
    nothing was changed. [remove] never raises for an absent file: when the
    operating system refuses neither of the two removals it returns, whether
    or not the active or the disabled file existed, and leaves neither of
    them. An exception of [os.remove] other than [FileNotFoundError] is not
    caught: a refusal on the active path is raised with nothing changed, and
    a refusal on the disabled path is raised after the active file has been
    deleted. *)
Theorem file_gateway_exceptions (os : platform) (p : LocalPlugin) (s : state) :
  (∃ b : bool,
      result (LocalPlugin_enable os p) s = Return b
      ∧ (b = false ↔
         ∃ e, result (os_rename os (disabled_path p) (normal_path p)) s = Raise e)
      ∧ (b = false → exec (LocalPlugin_enable os p) s = s)
      ∧ (files (fs s) !! disabled_path p = None → b = false))
  ∧ (∃ b : bool,
      result (LocalPlugin_disable os p) s = Return b
      ∧ (b = false ↔
         ∃ e, result (os_rename os (normal_path p) (disabled_path p)) s = Raise e)
      ∧ (b = false → exec (LocalPlugin_disable os p) s = s)
      ∧ (files (fs s) !! normal_path p = None → b = false))
  ∧ result (LocalPlugin_remove p) s ≠ Raise FileNotFoundError
  ∧ (remove_refused (fs s) (normal_path p) = None →
     remove_refused (fs s) (disabled_path p) = None →
     result (LocalPlugin_remove p) s = Return tt
     ∧ files (fs (exec (LocalPlugin_remove p) s)) !! normal_path p = None
     ∧ files (fs (exec (LocalPlugin_remove p) s)) !! disabled_path p = None)
  ∧ (∀ r, remove_refused (fs s) (normal_path p) = Some r →
       LocalPlugin_remove p s = (Raise (refusal_exn r), s))
  ∧ (∀ r, remove_refused (fs s) (normal_path p) = None →
       remove_refused (fs s) (disabled_path p) = Some r →
       result (LocalPlugin_remove p) s = Raise (refusal_exn r)
       ∧ files (fs (exec (LocalPlugin_remove p) s)) !! normal_path p = None).
Proof.
  split; [apply try_rename_total|]. split; [apply try_rename_total|].
  unfold result, exec. rewrite LocalPlugin_remove_eq.
  destruct (remove_refused (fs s) (normal_path p)) as [r1|];
    [|destruct (remove_refused (fs s) (disabled_path p)) as [r2|]]; simpl.
  - split; [intros [= E]; by apply refusal_exn_not_missing in E|].
    split; [done|]. split; [by intros r [= <-]|done].
  - split; [intros [= E]; by apply refusal_exn_not_missing in E|].
    split; [done|]. split; [done|].
    intros r _ [= <-]. split; [done|apply lookup_delete_eq].
  - split; [done|]. split; [|done]. intros _ _. split; [done|]. split.
    + rewrite lookup_delete_ne by (symmetry; apply normal_ne_disabled).
      apply lookup_delete_eq.
    + apply lookup_delete_eq.
Qed.

(** C8 fails on a name that holds a NUL: no file of that name exists, and
    [remove] raises the [ValueError] of [os.remove], which
    [suppress(FileNotFoundError)] lets through. *)
Lemma file_gateway_never_raises_fails : ¬ file_gateway_never_raises_claim.
Proof.
  intros H.
  destruct (H Posix (plugin_named name_with_nul) state_refusing_nul) as (_ & _ & Hr).
  specialize (Hr (or_introl eq_refl)). vm_compute in Hr. discriminate Hr.
Qed.

(** The gateway on the enabled [foo], where nothing is refused: [remove]
    returns and the file is gone. *)
Lemma file_gateway_exceptions_witness :
  result (LocalPlugin_remove (plugin_named "foo")) state_foo_enabled = Return tt
  ∧ files (fs (exec (LocalPlugin_remove (plugin_named "foo")) state_foo_enabled))
      !! "foo.py" = None.
Proof.
  destruct (file_gateway_exceptions Posix (plugin_named "foo") state_foo_enabled)
    as (_ & _ & _ & H & _).
  destruct (H eq_refl eq_refl) as (H1 & H2 & _). exact (conj H1 H2).
Defined.





(** ** Strings: suffixes and slices *)

Lemma substring_all (s : string) : substring 0 (String.length s) s = s.
Proof. induction s as [|c s IH]; simpl; [done|]. by rewrite IH. Qed.

Lemma substring_split (s : string) (n : nat) :
  (n ≤ String.length s)%nat →
  substring 0 n s +:+ substring n (String.length s - n) s = s.
Proof.
  revert n. induction s as [|c s IH]; intros n Hn; simpl in *.
  - by destruct n.
  - destruct n as [|n]; simpl.
    + by rewrite substring_all.
    + change (String c (substring 0 n s +:+ substring n (String.length s - n) s)
              = String c s).
      rewrite IH by lia. done.
Qed.

(** A string that ends with [suffix] is its slice without the suffix,
    followed by the suffix. *)
Lemma endswith_drop_tail (s suffix : string) :
  endswith s suffix = true →
  drop_tail (String.length suffix) s +:+ suffix = s.
Proof.
  unfold endswith, drop_tail. intros [Hle Heq]%andb_prop.
  apply Nat.leb_le in Hle. apply String.eqb_eq in Heq.
  pose proof (substring_split s (String.length s - String.length suffix)) as H.
  replace (String.length s - (String.length s - String.length suffix))
    with (String.length suffix) in H by lia.
  rewrite Heq in H. apply H. lia.
Qed.

(** The entry a plugin name was read from is its active or its disabled path. *)
Lemma entry_name_path (e n : string) :
  entry_name e = Some n → e = n +:+ ".py" ∨ e = n +:+ ".py.disabled".
Proof.
  unfold entry_name.
  destruct (endswith e ".py.disabled") eqn:Hd.
  - rewrite orb_true_r. intros [= <-]. right.
    symmetry. apply (endswith_drop_tail e ".py.disabled" Hd).
  - rewrite orb_false_r. destruct (endswith e ".py") eqn:Hp; [|done].
    intros [= <-]. left. symmetry. apply (endswith_drop_tail e ".py" Hp).
Qed.

(** ** The local listing as a list comprehension *)

Lemma manager_eta (m : PluginManager) : set_plugins (plugins m) m = m.
Proof. by destruct m. Qed.

(** One turn of the loop appends at most one record and touches nothing else. *)
Lemma load_local_plugins_body_eq (e : string) (s : state) :
  load_local_plugins_body e s
  = (Return tt,
     {| self := set_plugins
                  (plugins (self s)
                     ++ option_list (local_record (self s) (fs s) <$> entry_name e))
                  (self s);
        fs := fs s |}).
Proof.
  unfold load_local_plugins_body, entry_name.
  destruct (endswith e ".py" || endswith e ".py.disabled"); simpl.
  - done.
  - unfold ret. by rewrite app_nil_r, manager_eta, state_eta.
Qed.

(** The whole loop: the records of the plugin files among the entries, in
    the order of the entries, after those already there. *)
Lemma for_each_load_local_plugins_body (entries : list string) (s : state) :
  for_each entries load_local_plugins_body s
  = (Return tt,
     {| self := set_plugins
                  (plugins (self s)
                     ++ omap (λ e, local_record (self s) (fs s) <$> entry_name e) entries)
                  (self s);
        fs := fs s |}).
Proof.
  revert s. induction entries as [|e entries IH]; intros s; simpl.
  - unfold ret. by rewrite app_nil_r, manager_eta, state_eta.
  - unfold bind. rewrite load_local_plugins_body_eq, IH. simpl.
    f_equal. f_equal. unfold set_plugins. simpl. f_equal.
    rewrite <- app_assoc. f_equal.
    by destruct (entry_name e).
Qed.

(** [load_local_plugins], over a directory that lists and a ledger that
    parses, returns: the snapshot is rebuilt from the
    directory listing and the reloaded ledger, and the disk is only read. *)
Lemma load_local_plugins_eq (s : state) :
  load_local_plugins s
  = (Return (omap (λ e, local_record (reloaded s) (fs s) <$> entry_name e) (listing (fs s))),
     {| self := set_plugins
                  (omap (λ e, local_record (reloaded s) (fs s) <$> entry_name e)
                        (listing (fs s)))
                  (reloaded s);
        fs := fs s |}).
Proof.
  unfold load_local_plugins, load_local_version_map, os_listdir, bind, get_fs, get_self,
    modify_self, reloaded. simpl.
  destruct (version_json (fs s)) as [doc|] eqn:Hv; simpl;
    rewrite for_each_load_local_plugins_body; simpl; unfold listing; rewrite Hv; done.
Qed.

(** Every record of a fresh snapshot comes from a file of the directory. *)
Lemma load_local_plugins_names (s s' : state) (l : list LocalPlugin) (r : LocalPlugin) :
  load_local_plugins s = (Return l, s') →
  r ∈ l →
  is_Some (files (fs s) !! normal_path r) ∨ is_Some (files (fs s) !! disabled_path r).
Proof.
  rewrite load_local_plugins_eq. intros [= <- _] Hr.
  apply list_elem_of_omap in Hr as (e & He & Hrec).
  destruct (entry_name e) as [n|] eqn:Hn; [|done].
  simpl in Hrec. injection Hrec as <-.
  unfold normal_path, disabled_path. simpl.
  unfold listing in He. apply elem_of_app in He as [He|He].
  - apply list_elem_of_fmap in He as ([k v] & -> & Hkv). simpl in *.
    apply elem_of_map_to_list in Hkv.
    destruct (entry_name_path _ _ Hn) as [->| ->]; [left|right]; by eexists.
  - exfalso. destruct (version_json (fs s)); [|by apply not_elem_of_nil in He].
    apply list_elem_of_singleton in He as ->. vm_compute in Hn. discriminate Hn.
Qed.

(** ** Lookups in the snapshots *)

Lemma get_local_plugin_name (m : PluginManager) (n : string) (p : LocalPlugin) :
  get_local_plugin m n = Some p → name p = n ∧ p ∈ plugins m.
Proof.
  unfold get_local_plugin. intros [Hin Heq]%find_some.
  split; [by apply String.eqb_eq|by apply list_elem_of_In].
Qed.

Lemma get_local_plugin_none (m : PluginManager) (n : string) :
  (∀ p, p ∈ plugins m → name p ≠ n) → get_local_plugin m n = None.
Proof.
  intros H. unfold get_local_plugin.
  destruct (find _ _) as [p|] eqn:Hf; [|done].
  apply find_some in Hf as [Hin Heq%String.eqb_eq].
  by destruct (H p (proj2 (list_elem_of_In _ _) Hin)).
Qed.

Lemma get_remote_plugin_name (m : PluginManager) (n : string) (p : RemotePlugin) :
  get_remote_plugin m n = Some p → name p = n ∧ p ∈ remote_plugins m.
Proof.
  unfold get_remote_plugin. intros [Hin Heq]%find_some.
  split; [by apply String.eqb_eq|by apply list_elem_of_In].
Qed.

(** ** Removing a plugin *)

(** [remove_plugin], outcome by outcome: on a snapshot hit it removes both
    files and drops the ledger entry, saving the ledger, when there is one. *)
Lemma remove_plugin_eq (n : string) (s : state) :
  remove_plugin n s
  = match get_local_plugin (self s) n with
    | None => (Return false, s)
    | Some plugin =>
        match LocalPlugin_remove plugin s with
        | (Raise e, s1) => (Raise e, s1)
        | (Return _, s1) =>
            if dict_contains (version_map (self s1)) n then
              match write_refused (fs s1) "version.json" with
              | Some e =>
                  (Raise e,
                   {| self := set_version_map (delete n (version_map (self s1))) (self s1);
                      fs := fs s1 |})
              | None =>
                  (Return true,
                   {| self := set_version_map (delete n (version_map (self s1))) (self s1);
                      fs := set_version_json (Some (delete n (version_map (self s1))))
                              (fs s1) |})
              end
            else (Return true, s1)
        end
    end.
Proof.
  unfold remove_plugin, bind at 1, get_self. simpl.
  destruct (get_local_plugin (self s) n) as [plugin|]; [|done].
  unfold bind at 1.
  destruct (LocalPlugin_remove plugin s) as [[u|e] s1]; [|done].
  unfold bind, get_self, modify_self, save_local_version_map, get_fs, modify_fs,
    raise, ret. simpl.
  destruct (dict_contains (version_map (self s1)) n); [|done].
  unfold bind, get_self. simpl.
  by destruct (write_refused (fs s1) "version.json").
Qed.

Lemma dict_contains_false {V} (d : gmap string V) (k : string) :
  dict_contains d k = false ↔ d !! k = None.
Proof.
  unfold dict_contains. rewrite bool_decide_eq_false.
  rewrite <- eq_None_not_Some. done.
Qed.

Lemma dict_contains_true {V} (d : gmap string V) (k : string) :
  dict_contains d k = true ↔ is_Some (d !! k).
Proof. unfold dict_contains. by rewrite bool_decide_eq_true. Qed.

(** What a [remove_plugin] that returned true did. *)
Lemma remove_plugin_true (n : string) (s s' : state) :
  remove_plugin n s = (Return true, s') →
  ∃ p, get_local_plugin (self s) n = Some p
       ∧ remove_refused (fs s) (normal_path p) = None
       ∧ remove_refused (fs s) (disabled_path p) = None
       ∧ s' = if dict_contains (version_map (self s)) n then
                {| self := set_version_map (delete n (version_map (self s))) (self s);
                   fs := set_version_json (Some (delete n (version_map (self s))))
                           (set_files
                              (delete (disabled_path p)
                                 (delete (normal_path p) (files (fs s))))
                              (fs s)) |}
              else
                {| self := self s;
                   fs := set_files
                           (delete (disabled_path p)
                              (delete (normal_path p) (files (fs s))))
                           (fs s) |}.
Proof.
  rewrite remove_plugin_eq.
  destruct (get_local_plugin (self s) n) as [p|] eqn:Hp; [|done].
  destruct (LocalPlugin_remove p s) as [[u|e] s1] eqn:Hr; [|done].
  apply LocalPlugin_remove_ok in Hr as (H1 & H2 & ->). simpl.
  intros H. exists p. do 3 (split; [done|]).
  destruct (dict_contains (version_map (self s)) n); [|by injection H as <-].
  destruct (write_refused (fs s) "version.json"); [done|]. by injection H as <-.
Qed.

(** C9. The manager's [enable_plugin], [disable_plugin] and
    [remove_plugin] look the name up in the snapshot [self.plugins] only:
    for a name the snapshot does not list they return false and leave the
    whole state, files and ledger included, as it was, whatever is on disk. *)
Theorem snapshot_miss_is_noop (os : platform) (n : string) (s : state) :
  get_local_plugin (self s) n = None →
  enable_plugin os n s = (Return false, s)
  ∧ disable_plugin os n s = (Return false, s)
  ∧ remove_plugin n s = (Return false, s).
Proof.
  intros H. rewrite remove_plugin_eq.
  unfold enable_plugin, disable_plugin, bind, get_self. simpl.
  by rewrite H.
Qed.

(** The files and the ledger entry of [foo] exist, the snapshot is empty,
    and the three operations refuse. *)
Lemma snapshot_miss_is_noop_witness :
  is_Some (files (fs state_foo_unlisted) !! "foo.py")
  ∧ is_Some (files (fs state_foo_unlisted) !! "foo.py.disabled")
  ∧ is_Some (version_map (self state_foo_unlisted) !! "foo")
  ∧ enable_plugin Posix "foo" state_foo_unlisted = (Return false, state_foo_unlisted)
  ∧ disable_plugin Posix "foo" state_foo_unlisted = (Return false, state_foo_unlisted)
  ∧ remove_plugin "foo" state_foo_unlisted = (Return false, state_foo_unlisted).
Proof.
  split; [by vm_compute; eexists|]. split; [by vm_compute; eexists|].
  split; [by vm_compute; eexists|].
  apply (snapshot_miss_is_noop Posix "foo" state_foo_unlisted). reflexivity.
Defined.

(** C4, as the code has it. After [remove_plugin(name)] returns true neither
    the active file, nor the disabled file, nor a ledger entry is left for
    the name. The snapshot, however, still lists the record: a second call
    with nothing in between finds it again and returns true once more,
    without raising and without changing anything. Only after
    [load_local_plugins] has rebuilt the snapshot does the call return
    false. *)
Theorem remove_plugin_then_again (n : string) (s s' : state) :
  remove_plugin n s = (Return true, s') →
  files (fs s') !! (n +:+ ".py") = None
  ∧ files (fs s') !! (n +:+ ".py.disabled") = None
  ∧ version_map (self s') !! n = None
  ∧ remove_plugin n s' = (Return true, s')
  ∧ ∃ l s'', load_local_plugins s' = (Return l, s'')
             ∧ remove_plugin n s'' = (Return false, s'').
Proof.
  intros H. apply remove_plugin_true in H as (p & Hp & Hr1 & Hr2 & Hs').
  destruct (get_local_plugin_name _ _ _ Hp) as [Hn _].
  pose proof (normal_ne_disabled p) as Hne.
  unfold normal_path, disabled_path in *. rewrite Hn in *.
  set (f := delete (n +:+ ".py.disabled") (delete (n +:+ ".py") (files (fs s)))) in *.
  assert (Hf1 : f !! (n +:+ ".py") = None).
  { unfold f. rewrite lookup_delete_ne by done. apply lookup_delete_eq. }
  assert (Hf2 : f !! (n +:+ ".py.disabled") = None) by apply lookup_delete_eq.
  assert (Hagain : ∀ t : state,
             get_local_plugin (self t) n = Some p →
             files (fs t) = f → version_map (self t) !! n = None →
             remove_refused (fs t) (n +:+ ".py") = None →
             remove_refused (fs t) (n +:+ ".py.disabled") = None →
             remove_plugin n t = (Return true, t)).
  { intros t Ht Hft Hvt Ht1 Ht2. rewrite remove_plugin_eq, Ht, LocalPlugin_remove_eq.
    unfold normal_path, disabled_path. rewrite Hn, Ht1, Ht2. simpl.
    apply dict_contains_false in Hvt. rewrite Hvt. rewrite Hft.
    rewrite !delete_id by (done || by rewrite delete_id).
    rewrite <- Hft. by rewrite disk_eta, state_eta. }
  assert (Hreload : ∀ t : state,
             files (fs t) = f →
             ∃ l t', load_local_plugins t = (Return l, t')
                     ∧ remove_plugin n t' = (Return false, t')).
  { intros t Hft. rewrite load_local_plugins_eq. do 2 eexists. split; [done|].
    rewrite remove_plugin_eq.
    rewrite get_local_plugin_none; [done|].
    simpl. intros r Hr Hrn.
    destruct (load_local_plugins_names t _ _ r (load_local_plugins_eq t) Hr)
      as [[x Hx]|[x Hx]];
      unfold normal_path, disabled_path in Hx; rewrite Hrn, Hft in Hx; congruence. }
  destruct (dict_contains (version_map (self s)) n) eqn:Hc; subst s'; simpl.
  - split; [done|]. split; [done|]. split; [apply lookup_delete_eq|].
    split; [|by apply Hreload].
    apply Hagain; simpl; [done|done|apply lookup_delete_eq|done|done].
  - apply dict_contains_false in Hc.
    split; [done|]. split; [done|]. split; [done|].
    split; [|by apply Hreload].
    by apply Hagain.
Qed.

(** C4 fails on its last part: [foo] is listed, installed and on disk; the
    first [remove_plugin("foo")] returns true, and so does the second. *)
Lemma remove_plugin_twice_fails : ¬ remove_plugin_twice_claim.
Proof.
  intros H.
  destruct (H "foo" state_foo_listed state_foo_removed) as (_ & _ & _ & s'' & Hs).
  - vm_compute. by eexists.
  - by vm_compute.
  - vm_compute in Hs. discriminate Hs.
Qed.

(** The two calls on [foo], evaluated. *)
Lemma remove_plugin_then_again_witness :
  remove_plugin "foo" state_foo_listed = (Return true, state_foo_removed)
  ∧ files (fs state_foo_removed) !! "foo.py" = None
  ∧ version_map (self state_foo_removed) !! "foo" = None
  ∧ remove_plugin "foo" state_foo_removed = (Return true, state_foo_removed).
Proof.
  assert (H : remove_plugin "foo" state_foo_listed = (Return true, state_foo_removed))
    by (vm_compute; reflexivity).
  destruct (remove_plugin_then_again "foo" state_foo_listed state_foo_removed H)
    as (H1 & _ & H3 & H4 & _).
  exact (conj H (conj H1 (conj H3 H4))).
Defined.

(** ** The update policy *)

Lemma SFeqb_not_SFltb (x y : spec_float) : SFeqb x y = true → SFltb x y = false.
Proof. unfold SFeqb, SFltb. by destruct (SFcompare x y) as [[]|]. Qed.

(** What [get_local_version] returns, from the stored value. *)
Lemma get_local_version_eq (m : PluginManager) (n : string) :
  get_local_version m n
  = match dict_get (version_map m) n with
    | Some v => if SFeqb v float_zero then None else Some v
    | None => None
    end.
Proof.
  unfold get_local_version, truthy, option_truthy, truthy, float_truthy.
  destruct (dict_get (version_map m) n) as [v|]; [|done].
  by destruct (SFeqb v float_zero).
Qed.

(** [plugin_need_update] as a function of the two stored versions. *)
Lemma plugin_need_update_eq (m : PluginManager) (n : string) :
  plugin_need_update m n
  = match dict_get (version_map m) n, dict_get (remote_version_map m) n with
    | Some lv, Some rv =>
        negb (SFeqb lv float_zero) && negb (SFeqb rv float_zero) && SFltb lv rv
    | _, _ => false
    end.
Proof.
  unfold plugin_need_update. rewrite get_local_version_eq.
  unfold truthy, float_truthy.
  destruct (dict_get (version_map m) n) as [lv|]; [|done].
  destruct (SFeqb lv float_zero) eqn:Hl; simpl; [by destruct (dict_get _ _)|].
  rewrite Hl. simpl.
  destruct (dict_get (remote_version_map m) n) as [rv|]; [|done].
  by destruct (SFeqb rv float_zero).
Qed.

(** C1, as the code has it. [plugin_need_update] is false when no local
    version is recorded and when the recorded local version is zero.
    Otherwise it is false when the cached remote version is unknown or is
    zero, and, for a non-zero remote version, true exactly when the local
    version is strictly below it. Equal versions never give true. *)
Theorem plugin_need_update_policy (m : PluginManager) (n : string) :
  (dict_get (version_map m) n = None → plugin_need_update m n = false)
  ∧ (∀ z, dict_get (version_map m) n = Some z → SFeqb z float_zero = true →
       plugin_need_update m n = false)
  ∧ (∀ lv, dict_get (version_map m) n = Some lv → SFeqb lv float_zero = false →
       (dict_get (remote_version_map m) n = None → plugin_need_update m n = false)
       ∧ (∀ rv, dict_get (remote_version_map m) n = Some rv →
            (SFeqb rv float_zero = true → plugin_need_update m n = false)
            ∧ (SFeqb rv float_zero = false →
               (plugin_need_update m n = true ↔ SFltb lv rv = true))))
  ∧ (∀ lv rv, dict_get (version_map m) n = Some lv →
       dict_get (remote_version_map m) n = Some rv →
       SFeqb lv rv = true → plugin_need_update m n = false).
Proof.
  rewrite plugin_need_update_eq.
  split; [by intros ->|]. split.
  { intros z -> Hz. rewrite Hz. by destruct (dict_get _ _). }
  split.
  { intros lv -> Hl. rewrite Hl. simpl. split; [by intros ->|].
    intros rv ->. split; intros Hr; rewrite Hr; simpl; [done|].
    by destruct (SFltb lv rv). }
  intros lv rv -> -> Heq. rewrite (SFeqb_not_SFltb _ _ Heq).
  by rewrite andb_false_r.
Qed.

(** C1 fails where the remote version is zero: the ledger has [-1.0], the
    catalog [0.0]; the local version is strictly below the remote one and
    [plugin_need_update] is false. *)
Lemma need_update_policy_fails : ¬ need_update_policy_claim.
Proof.
  intros H.
  destruct (H (manager_of {[ "foo" := Some float_neg_1_0 ]}
                          {[ "foo" := Some float_zero ]} []) "foo")
    as (_ & _ & H3 & _).
  destruct (H3 float_neg_1_0) as [_ H4]; [by vm_compute|by vm_compute|].
  destruct (H4 float_zero) as [_ H5]; [by vm_compute|].
  specialize (H5 eq_refl). vm_compute in H5. discriminate H5.
Qed.

(** The policy on a ledger at [1.0] and a catalog at [2.0]: an update is due. *)
Lemma plugin_need_update_policy_witness :
  plugin_need_update
    (manager_of {[ "bar" := Some float_1_0 ]} {[ "bar" := Some float_2_0 ]} []) "bar"
  = true.
Proof.
  destruct (plugin_need_update_policy
              (manager_of {[ "bar" := Some float_1_0 ]} {[ "bar" := Some float_2_0 ]} [])
              "bar") as (_ & _ & H & _).
  destruct (H float_1_0) as [_ H']; [by vm_compute|by vm_compute|].
  destruct (H' float_2_0) as [_ H'']; [by vm_compute|].
  apply H''; by vm_compute.
Defined.

(** C10. A cached remote version of zero, either zero, is treated as an
    unknown remote version: [plugin_need_update] is false whatever the
    recorded local version. *)
Theorem remote_zero_never_updates (m : PluginManager) (n : string) (rv : spec_float) :
  remote_version_map m !! n = Some (Some rv) →
  SFeqb rv float_zero = true →
  plugin_need_update m n = false.
Proof.
  intros Hr Hz. rewrite plugin_need_update_eq.
  unfold dict_get at 2. rewrite Hr, Hz.
  destruct (dict_get (version_map m) n); [|done].
  by rewrite andb_false_r.
Qed.

(** The ledger has [1.0], the catalog [0.0]: no update. *)
Lemma remote_zero_never_updates_witness :
  plugin_need_update
    (manager_of {[ "foo" := Some float_1_0 ]} {[ "foo" := Some float_zero ]} []) "foo"
  = false.
Proof.
  apply (remote_zero_never_updates _ "foo" float_zero); by vm_compute.
Defined.

(** C3, as the code has it. A ledger entry of exactly zero, either zero, is
    falsy: [get_local_version] returns [None] for it, as for a name with no
    entry. Such a name is told apart from one that is not installed by
    [get_plugin_install_status] alone, which is true; no update is ever due
    for it. *)
Theorem zero_version_reads_as_absent (m : PluginManager) (n : string) (z : spec_float) :
  version_map m !! n = Some (Some z) →
  SFeqb z float_zero = true →
  get_local_version m n = None
  ∧ get_plugin_install_status m n = true
  ∧ plugin_need_update m n = false.
Proof.
  intros Hv Hz.
  assert (Hd : dict_get (version_map m) n = Some z) by (unfold dict_get; by rewrite Hv).
  split; [by rewrite get_local_version_eq, Hd, Hz|]. split.
  - unfold get_plugin_install_status. apply dict_contains_true. by eexists.
  - rewrite plugin_need_update_eq, Hd, Hz. by destruct (dict_get (remote_version_map m) n).
Qed.

(** C3 fails on a ledger that holds [0.0] for [foo]. *)
Lemma zero_version_is_present_fails : ¬ zero_version_is_present_claim.
Proof.
  intros H.
  specialize (H (manager_of {[ "foo" := Some float_zero ]} ∅ []) "foo" float_zero).
  assert (Hn : get_local_version (manager_of {[ "foo" := Some float_zero ]} ∅ []) "foo"
               = None) by (by vm_compute).
  rewrite H in Hn; [discriminate Hn|by vm_compute|by vm_compute].
Qed.

(** The entry [foo: 0.0], evaluated. *)
Lemma zero_version_reads_as_absent_witness :
  get_local_version (manager_of {[ "foo" := Some float_zero ]} ∅ []) "foo" = None
  ∧ get_plugin_install_status (manager_of {[ "foo" := Some float_zero ]} ∅ []) "foo" = true
  ∧ plugin_need_update (manager_of {[ "foo" := Some float_zero ]} ∅ []) "foo" = false.
Proof.
  apply (zero_version_reads_as_absent _ "foo" float_zero); by vm_compute.
Defined.

(** ** Installing from the catalog *)

(** [RemotePlugin.install], outcome by outcome: the download, the removal of
    the old copies, the write of the new file. *)
Lemma RemotePlugin_install_eq
    (G : string) (cg : string → outcome response) (p : RemotePlugin) (s : state) :
  RemotePlugin_install G cg p s
  = match cg (source_url G (name p)) with
    | Raise e => (Raise e, s)
    | Return html =>
        if (status_code html =? 200)%Z then
          match LocalPlugin_remove p s with
          | (Raise e, s1) => (Raise e, s1)
          | (Return _, s1) =>
              match write_refused (fs s1) (name p +:+ ".py") with
              | Some e => (Raise e, s1)
              | None =>
                  (Return true,
                   {| self := self s1;
                      fs := set_files (<[name p +:+ ".py" := text html]> (files (fs s1)))
                              (fs s1) |})
              end
          end
        else (Return false, s)
    end.
Proof.
  unfold RemotePlugin_install, source_url, bind at 1.
  destruct (cg _) as [html|e]; [|done].
  destruct (status_code html =? 200)%Z; [|done].
  unfold bind at 1.
  destruct (LocalPlugin_remove p s) as [[u|e] s1]; [|done].
  unfold open_write, get_fs, modify_fs, raise, ret, bind. simpl.
  by destruct (write_refused (fs s1) (name p +:+ ".py")).
Qed.

(** [install_remote_plugin], outcome by outcome. *)
Lemma install_remote_plugin_eq
    (G : string) (cg : string → outcome response) (n : string) (s : state) :
  install_remote_plugin G cg n s
  = match get_remote_plugin (self s) n with
    | None => (Return false, s)
    | Some plugin =>
        match RemotePlugin_install G cg plugin s with
        | (Raise e, s1) => (Raise e, s1)
        | (Return false, s1) => (Return false, s1)
        | (Return true, s1) =>
            match write_refused (fs s1) "version.json" with
            | Some e =>
                (Raise e,
                 {| self := set_version_map
                              (<[n := version plugin]> (version_map (self s1))) (self s1);
                    fs := fs s1 |})
            | None =>
                (Return true,
                 {| self := set_version_map
                              (<[n := version plugin]> (version_map (self s1))) (self s1);
                    fs := set_version_json
                            (Some (<[n := version plugin]> (version_map (self s1))))
                            (fs s1) |})
            end
        end
    end.
Proof.
  unfold install_remote_plugin, bind at 1, get_self. simpl.
  destruct (get_remote_plugin (self s) n) as [plugin|]; [|done].
  unfold bind at 1.
  destruct (RemotePlugin_install G cg plugin s) as [[[]|e] s1]; [|done|done].
  unfold set_local_version, save_local_version_map, get_self, get_fs,
    modify_self, modify_fs, raise, ret, bind. simpl.
  by destruct (write_refused (fs s1) "version.json").
Qed.

(** What an [install_remote_plugin] that returned true did. *)
Lemma install_remote_plugin_true
    (G : string) (cg : string → outcome response) (n : string) (s s' : state) :
  install_remote_plugin G cg n s = (Return true, s') →
  ∃ (p : RemotePlugin) (html : response),
    get_remote_plugin (self s) n = Some p
    ∧ cg (source_url G (name p)) = Return html
    ∧ (status_code html =? 200)%Z = true
    ∧ remove_refused (fs s) (normal_path p) = None
    ∧ remove_refused (fs s) (disabled_path p) = None
    ∧ write_refused (fs s) (name p +:+ ".py") = None
    ∧ write_refused (fs s) "version.json" = None
    ∧ s' = {| self := set_version_map (<[n := version p]> (version_map (self s))) (self s);
              fs := set_version_json
                      (Some (<[n := version p]> (version_map (self s))))
                      (set_files
                         (<[name p +:+ ".py" := text html]>
                            (delete (disabled_path p)
                               (delete (normal_path p) (files (fs s)))))
                         (fs s)) |}.
Proof.
  rewrite install_remote_plugin_eq.
  destruct (get_remote_plugin (self s) n) as [p|] eqn:Hp; [|done].
  rewrite RemotePlugin_install_eq.
  destruct (cg _) as [html|e] eqn:Hget; [|done].
  destruct (status_code html =? 200)%Z eqn:Hcode; [|done].
  destruct (LocalPlugin_remove p s) as [[u|e] s1] eqn:Hr; [|done].
  apply LocalPlugin_remove_ok in Hr as (H1 & H2 & ->). simpl.
  destruct (write_refused (fs s) (name p +:+ ".py")) eqn:Hw; [done|]. simpl.
  destruct (write_refused (fs s) "version.json") eqn:Hv; [done|].
  intros [= <-]. by exists p, html.
Qed.

(** C2. When [install_remote_plugin(name)] returns true for a name of the
    remote catalog, the name is installed ([get_plugin_install_status]), its
    active file exists ([get_plugin_load_status]) and holds the downloaded
    text, and the ledger, in memory and in [version.json], records for the
    name the version of its catalog record. *)
Theorem install_remote_plugin_success
    (G : string) (cg : string → outcome response) (n : string) (s s' : state)
    (p : RemotePlugin) :
  get_remote_plugin (self s) n = Some p →
  install_remote_plugin G cg n s = (Return true, s') →
  get_plugin_install_status (self s') n = true
  ∧ get_plugin_load_status n s' = (Return true, s')
  ∧ version_map (self s') !! n = Some (version p)
  ∧ version_json (fs s') = Some (version_map (self s'))
  ∧ ∃ html, cg (source_url G n) = Return html
            ∧ status_code html = 200%Z
            ∧ files (fs s') !! (n +:+ ".py") = Some (text html).
Proof.
  intros Hp H.
  apply install_remote_plugin_true in H
    as (p' & html & Hp' & Hget & Hcode & _ & _ & _ & _ & ->).
  rewrite Hp in Hp'. injection Hp' as <-.
  destruct (get_remote_plugin_name _ _ _ Hp) as [Hn _]. rewrite Hn in *.
  simpl.
  split; [unfold get_plugin_install_status; apply dict_contains_true; simpl;
          rewrite lookup_insert_eq; by eexists|].
  split.
  { unfold get_plugin_load_status, os_path_exists, bind, get_fs, ret. simpl.
    rewrite lookup_insert_eq. rewrite bool_decide_eq_true_2 by by eexists. done. }
  split; [apply lookup_insert_eq|]. split; [done|].
  exists html. split; [done|]. split; [by apply Z.eqb_eq|apply lookup_insert_eq].
Qed.

(** The install of [foo] over an empty directory, evaluated. *)
Lemma install_remote_plugin_success_witness :
  install_remote_plugin "https://example.org/" client_get_ok "foo" state_catalog_foo
  = (Return true, state_catalog_foo_installed)
  ∧ get_plugin_install_status (self state_catalog_foo_installed) "foo" = true
  ∧ get_plugin_load_status "foo" state_catalog_foo_installed
    = (Return true, state_catalog_foo_installed)
  ∧ version_map (self state_catalog_foo_installed) !! "foo" = Some (Some float_2_0).
Proof.
  assert (H : install_remote_plugin "https://example.org/" client_get_ok "foo"
                state_catalog_foo = (Return true, state_catalog_foo_installed))
    by (vm_compute; reflexivity).
  destruct (install_remote_plugin_success "https://example.org/" client_get_ok "foo"
              state_catalog_foo state_catalog_foo_installed remote_foo eq_refl H)
    as (H1 & H2 & H3 & _).
  exact (conj H (conj H1 (conj H2 H3))).
Defined.

(** C7. When the download of a catalog plugin answers with a status other
    than 200, [install_remote_plugin] returns false and the state is the one
    it started from: no file written or removed, and the ledger, in memory
    and in [version.json], untouched. The same holds of
    [RemotePlugin.install] itself. *)
Theorem install_remote_plugin_download_failure
    (G : string) (cg : string → outcome response) (n : string) (s : state)
    (p : RemotePlugin) (html : response) :
  get_remote_plugin (self s) n = Some p →
  cg (source_url G n) = Return html →
  status_code html ≠ 200%Z →
  RemotePlugin_install G cg p s = (Return false, s)
  ∧ install_remote_plugin G cg n s = (Return false, s).
Proof.
  intros Hp Hget Hcode.
  destruct (get_remote_plugin_name _ _ _ Hp) as [Hn _].
  apply Z.eqb_neq in Hcode.
  assert (Hi : RemotePlugin_install G cg p s = (Return false, s)).
  { by rewrite RemotePlugin_install_eq, Hn, Hget, Hcode. }
  split; [exact Hi|]. by rewrite install_remote_plugin_eq, Hp, Hi.
Qed.

(** A 404 on the source of [foo], evaluated. *)
Lemma install_remote_plugin_download_failure_witness :
  install_remote_plugin "https://example.org/" client_get_404 "foo" state_catalog_foo
  = (Return false, state_catalog_foo).
Proof.
  apply (install_remote_plugin_download_failure "https://example.org/" client_get_404
           "foo" state_catalog_foo remote_foo
           {| status_code := 404; text := "404: Not Found" |});
    [reflexivity|reflexivity|by vm_compute].
Defined.

(** ** The local listing scenario *)

(** C5. The plugin directory holds exactly [foo.py] and [bar.py.disabled],
    whatever their contents; the ledger, read from [version.json] or, when
    that file does not exist, the one in memory, has no entry for [foo] and
    the entry [1.0] for [bar]. Then [load_local_plugins] returns exactly two
    records, in the order of the directory listing: [foo] with status true,
    installed false and no version, and [bar] with status false, installed
    true and version [1.0]; and they are the new snapshot. *)
Theorem load_local_plugins_scenario (s : state) (doc : ledger) (c1 c2 : string) :
  files (fs s) = {[ "foo.py" := c1; "bar.py.disabled" := c2 ]} →
  (version_json (fs s) = Some doc
   ∨ (version_json (fs s) = None ∧ version_map (self s) = doc)) →
  doc !! "foo" = None →
  doc !! "bar" = Some (Some float_1_0) →
  ∃ l, result load_local_plugins s = Return l
       ∧ l ≡ₚ [record_foo; record_bar]
       ∧ plugins (self (exec load_local_plugins s)) = l.
Proof.
  intros Hf Hd Hfoo Hbar. unfold result, exec. rewrite load_local_plugins_eq. simpl.
  eexists. split; [reflexivity|]. split; [|reflexivity].
  assert (Hvm : version_map (reloaded s) = doc).
  { unfold reloaded. by destruct Hd as [->|[-> ->]]. }
  assert (Hrf : local_record (reloaded s) (fs s) "foo" = record_foo).
  { unfold local_record, record_foo, get_plugin_install_status, get_local_version,
      dict_get, dict_contains. rewrite Hvm, Hf, Hfoo. by vm_compute. }
  assert (Hrb : local_record (reloaded s) (fs s) "bar" = record_bar).
  { unfold local_record, record_bar, get_plugin_install_status, get_local_version,
      dict_get, dict_contains. rewrite Hvm, Hf, Hbar. by vm_compute. }
  assert (Hls : ∃ tl, listing (fs s) = "foo.py" :: "bar.py.disabled" :: tl
                      ∧ (tl = [] ∨ tl = ["version.json"])).
  { unfold listing. rewrite Hf.
    destruct (version_json (fs s)); eexists; (split; [by vm_compute|]); auto. }
  destruct Hls as (tl & -> & Htl).
  change (omap ?f ("foo.py" :: "bar.py.disabled" :: tl))
    with (match f "foo.py" with
          | Some y => cons y
          | None => id
          end (match f "bar.py.disabled" with
               | Some y => cons y
               | None => id
               end (omap f tl))).
  cbv beta.
  replace (entry_name "foo.py") with (Some "foo") by (by vm_compute).
  replace (entry_name "bar.py.disabled") with (Some "bar") by (by vm_compute).
  simpl. rewrite Hrf, Hrb.
  destruct Htl as [->| ->]; [done|].
  replace (omap _ ["version.json"]) with (@nil LocalPlugin); [done|].
  change (omap ?f ["version.json"])
    with (match f "version.json" with Some y => [y] | None => [] end).
  cbv beta.
  by replace (entry_name "version.json") with (@None string) by (by vm_compute).
Qed.

(** The listing of the two files with [version.json] on disk, evaluated. *)
Lemma load_local_plugins_scenario_witness :
  ∃ l, result load_local_plugins state_listing = Return l
       ∧ l ≡ₚ [record_foo; record_bar]
       ∧ plugins (self (exec load_local_plugins state_listing)) = l.
Proof.
  apply (load_local_plugins_scenario state_listing {[ "bar" := Some float_1_0 ]}
           "print(1)" "print(2)").
  - by vm_compute.
  - left. reflexivity.
  - by vm_compute.
  - by vm_compute.
Defined.

(** ** The remote catalog *)

Lemma map_M_remote_record (l : list descriptor) (s : state) :
  map_M (λ plugin,
    loaded <- get_plugin_load_status (d_name plugin) ;;
    ret {| as_local := {| name := d_name plugin; status := loaded;
                          installed := false; version := d_version plugin |};
           section := d_section plugin; maintainer := d_maintainer plugin;
           size := d_size plugin; supported := d_supported plugin;
           des := d_des plugin |}) l s
  = (Return (remote_record (fs s) <$> l), s).
Proof.
  induction l as [|x l IH]; simpl; [done|].
  unfold bind, get_plugin_load_status, os_path_exists, get_fs, ret in *. simpl in *.
  by rewrite IH.
Qed.

Lemma for_each_versions_of (ps : list RemotePlugin) (s : state) :
  for_each ps (λ plugin : RemotePlugin,
    modify_self (λ m, set_remote_version_map
                        (<[name plugin := version plugin]> (remote_version_map m)) m)) s
  = (Return tt,
     {| self := set_remote_version_map (versions_of ps (remote_version_map (self s)))
                  (self s);
        fs := fs s |}).
Proof.
  revert s. induction ps as [|p ps IH]; intros s; simpl.
  - unfold ret. destruct s as [[] ?]. done.
  - unfold bind, modify_self. rewrite IH. done.
Qed.

(** [load_remote_plugins] on a fetched list: the snapshot and the version
    dictionary are both rebuilt from the fetched list, the disk is only read. *)
Lemma load_remote_plugins_eq (l : list descriptor) (s : state) :
  load_remote_plugins l s
  = (Return (remote_record (fs s) <$> l),
     {| self := {| version_map := version_map (self s);
                   remote_version_map := versions_of (remote_record (fs s) <$> l) ∅;
                   plugins := plugins (self s);
                   remote_plugins := remote_record (fs s) <$> l |};
        fs := fs s |}).
Proof.
  unfold load_remote_plugins. unfold bind at 1. rewrite map_M_remote_record.
  unfold bind, modify_self. simpl. rewrite for_each_versions_of. done.
Qed.

Lemma versions_of_other (ps : list RemotePlugin) (acc : ledger) (n : string) :
  (∀ p : RemotePlugin, p ∈ ps → name p ≠ n) →
  versions_of ps acc !! n = acc !! n.
Proof.
  revert acc. induction ps as [|q ps IH]; intros acc H; simpl; [done|].
  rewrite IH by (intros p Hp; apply H; by right).
  apply lookup_insert_ne. apply H. by left.
Qed.

(** With one record per name, the dictionary holds the version of the
    record that [get_remote_plugin] finds. *)
Lemma versions_of_find (ps : list RemotePlugin) (acc : ledger) (n : string)
    (p : RemotePlugin) :
  NoDup ((λ q : RemotePlugin, name q) <$> ps) →
  List.find (λ x : RemotePlugin, String.eqb (name x) n) ps = Some p →
  versions_of ps acc !! n = Some (version p).
Proof.
  revert acc. induction ps as [|q ps IH]; intros acc Hnd Hf; simpl in *; [done|].
  apply NoDup_cons in Hnd as [Hq Hnd].
  destruct (String.eqb (name q) n) eqn:Hqn.
  - injection Hf as <-. apply String.eqb_eq in Hqn. subst n.
    rewrite versions_of_other; [apply lookup_insert_eq|].
    intros p Hp Hname. apply Hq. rewrite <- Hname.
    apply list_elem_of_fmap. by exists p.
  - by apply IH.
Qed.

(** After a fetch of a catalog with one descriptor per name, the cached
    version of a name is the version of its catalog record. *)
Lemma load_remote_plugins_cached_version
    (l : list descriptor) (s s' : state) (ps : list RemotePlugin) (n : string)
    (p : RemotePlugin) :
  NoDup (d_name <$> l) →
  load_remote_plugins l s = (Return ps, s') →
  get_remote_plugin (self s') n = Some p →
  remote_version_map (self s') !! n = Some (version p).
Proof.
  intros Hnd. rewrite load_remote_plugins_eq. intros [= <- <-]. simpl.
  unfold get_remote_plugin. simpl. apply versions_of_find.
  by rewrite <- list_fmap_compose.
Qed.

(** ** Updating *)

(** [update_remote_plugin] installs exactly when an update is due. *)
Lemma update_remote_plugin_eq
    (G : string) (cg : string → outcome response) (n : string) (s : state) :
  update_remote_plugin G cg n s
  = if plugin_need_update (self s) n then install_remote_plugin G cg n s
    else (Return false, s).
Proof.
  unfold update_remote_plugin, bind, get_self. simpl.
  by destruct (plugin_need_update (self s) n).
Qed.

(** The scenario of the catalog at [2.0] over a ledger at [1.0]: after the
    fetch an update of [bar] is due, and once it has succeeded the ledger
    holds [2.0] and no further update is due. *)
Example update_scenario :
  let s1 := exec (load_remote_plugins [descriptor_bar]) state_bar_outdated in
  let s2 := exec (update_remote_plugin "https://example.org/" client_get_ok "bar") s1 in
  plugin_need_update (self s1) "bar" = true
  ∧ result (update_remote_plugin "https://example.org/" client_get_ok "bar") s1
    = Return true
  ∧ version_map (self s2) !! "bar" = Some (Some float_2_0)
  ∧ version_json (fs s2) = Some {[ "bar" := Some float_2_0 ]}
  ∧ file_pair (plugin_named "bar") s2 = (Some "print(2)", None)
  ∧ plugin_need_update (self s2) "bar" = false.
Proof. by vm_compute. Qed.

(** * Further properties of the plugin manager *)

(** ** Strings: concatenation against suffix tests and slices *)

Lemma app_cons (c : Ascii.ascii) (a b : string) :
  String c a +:+ b = String c (a +:+ b).
Proof. reflexivity. Qed.

Lemma app_assoc_string (a b c : string) : (a +:+ b) +:+ c = a +:+ (b +:+ c).
Proof.
  induction a as [|x a IH]; [done|]. by rewrite !app_cons, IH.
Qed.

Lemma length_app_string (a b : string) :
  String.length (a +:+ b) = (String.length a + String.length b)%nat.
Proof.
  induction a as [|x a IH]; [done|]. rewrite app_cons. simpl. by rewrite IH.
Qed.

Lemma substring_app_r (a b : string) :
  substring (String.length a) (String.length b) (a +:+ b) = b.
Proof.
  induction a as [|x a IH]; [apply substring_all|].
  rewrite app_cons. simpl. exact IH.
Qed.

Lemma substring_app_l (a b : string) :
  substring 0 (String.length a) (a +:+ b) = a.
Proof.
  induction a as [|x a IH]; [by destruct b|].
  rewrite app_cons. simpl. by rewrite IH.
Qed.

Lemma endswith_app (a suffix : string) : endswith (a +:+ suffix) suffix = true.
Proof.
  unfold endswith. rewrite length_app_string.
  replace (String.length a + String.length suffix - String.length suffix)%nat
    with (String.length a) by lia.
  rewrite substring_app_r, String.eqb_refl.
  rewrite andb_true_r. apply Nat.leb_le. lia.
Qed.

Lemma drop_tail_app (a suffix : string) :
  drop_tail (String.length suffix) (a +:+ suffix) = a.
Proof.
  unfold drop_tail. rewrite length_app_string.
  replace (String.length a + String.length suffix - String.length suffix)%nat
    with (String.length a) by lia.
  apply substring_app_l.
Qed.

(** Concatenation cancels on the right. *)
Lemma app_inj_r (a b suffix : string) : a +:+ suffix = b +:+ suffix → a = b.
Proof.
  intros H. rewrite <- (drop_tail_app a suffix), <- (drop_tail_app b suffix).
  by rewrite H.
Qed.

(** Two strings with suffixes of one length agree on the suffixes. *)
Lemma app_suffix_eq (a b u v : string) :
  String.length u = String.length v → a +:+ u = b +:+ v → u = v.
Proof.
  intros Hlen H.
  assert (Hab : String.length a = String.length b).
  { apply (f_equal String.length) in H. rewrite !length_app_string in H. lia. }
  rewrite <- (substring_app_r a u), <- (substring_app_r b v).
  by rewrite H, Hab, Hlen.
Qed.

(** No string ends both in [.py] and in [.py.disabled]. *)
Lemma py_not_disabled (a b : string) : a +:+ ".py" ≠ b +:+ ".py.disabled".
Proof.
  intros H.
  change (a +:+ ".p" +:+ "y" = b +:+ ".py.disable" +:+ "d") in H.
  rewrite <- (app_assoc_string a), <- (app_assoc_string b) in H.
  apply app_suffix_eq in H; [discriminate H|done].
Qed.

Lemma endswith_py_disabled_false (n : string) :
  endswith (n +:+ ".py") ".py.disabled" = false.
Proof.
  destruct (endswith (n +:+ ".py") ".py.disabled") eqn:H; [|done].
  apply endswith_drop_tail in H. symmetry in H. by apply py_not_disabled in H.
Qed.

(** The listing reads a plugin's name back from either of its paths. *)
Lemma entry_name_normal (n : string) : entry_name (n +:+ ".py") = Some n.
Proof.
  unfold entry_name.
  rewrite endswith_app, endswith_py_disabled_false. simpl.
  f_equal. apply (drop_tail_app n ".py").
Qed.

Lemma entry_name_disabled (n : string) : entry_name (n +:+ ".py.disabled") = Some n.
Proof.
  unfold entry_name. rewrite (endswith_app n ".py.disabled"), orb_true_r.
  f_equal. apply (drop_tail_app n ".py.disabled").
Qed.

(** ** Paths *)



(** ** The local listing *)

(** [load_local_plugins] lists exactly the names that have a file: a record
    of name [n] is in the snapshot if and only if [n.py] or [n.py.disabled]
    is in the plugin directory. *)
Theorem load_local_plugins_lists_files (s s' : state) (l : list LocalPlugin) (n : string) :
  load_local_plugins s = (Return l, s') →
  (∃ r, r ∈ l ∧ name r = n)
  ↔ (is_Some (files (fs s) !! (n +:+ ".py"))
     ∨ is_Some (files (fs s) !! (n +:+ ".py.disabled"))).
Proof.
  intros Hl. split.
  - intros (r & Hr & <-). apply (load_local_plugins_names s s' l r Hl Hr).
  - rewrite load_local_plugins_eq in Hl. injection Hl as <- _.
    intros H. exists (local_record (reloaded s) (fs s) n). split; [|done].
    apply list_elem_of_omap.
    assert (He : ∃ e, e ∈ (map_to_list (files (fs s))).*1 ∧ entry_name e = Some n).
    { destruct H as [[c Hc]|[c Hc]].
      - exists (n +:+ ".py"). split; [|apply entry_name_normal].
        apply list_elem_of_fmap. exists (n +:+ ".py", c).
        split; [done|]. by apply elem_of_map_to_list.
      - exists (n +:+ ".py.disabled"). split; [|apply entry_name_disabled].
        apply list_elem_of_fmap. exists (n +:+ ".py.disabled", c).
        split; [done|]. by apply elem_of_map_to_list. }
    destruct He as (e & He & Hn). exists e. split.
    + unfold listing. apply elem_of_app. by left.
    + by rewrite Hn.
Qed.

(** [foo] is listed because [foo.py] exists. *)
Lemma load_local_plugins_lists_files_witness :
  ∃ r, r ∈ [record_foo; record_bar] ∧ name r = "foo".
Proof.
  apply (load_local_plugins_lists_files state_listing
           (exec load_local_plugins state_listing) [record_foo; record_bar] "foo").
  - by vm_compute.
  - left. vm_compute. by eexists.
Defined.

(** Every record of a fresh snapshot reconciles the disk and the reloaded
    ledger: its status says whether the active file exists, its installed
    flag whether the ledger has an entry for the name, and its version is
    what [get_local_version] reads. *)
Theorem load_local_plugins_records (s s' : state) (l : list LocalPlugin) (r : LocalPlugin) :
  load_local_plugins s = (Return l, s') →
  r ∈ l →
  (status r = true ↔ is_Some (files (fs s') !! normal_path r))
  ∧ (installed r = true ↔ is_Some (version_map (self s') !! name r))
  ∧ version r = get_local_version (self s') (name r).
Proof.
  rewrite load_local_plugins_eq. intros [= <- <-] Hr. simpl.
  apply list_elem_of_omap in Hr as (e & _ & Hrec).
  destruct (entry_name e) as [n|]; [|done].
  simpl in Hrec. injection Hrec as <-. simpl.
  split; [apply bool_decide_eq_true|]. split; [|done].
  unfold get_plugin_install_status. apply dict_contains_true.
Qed.

(** The record of [bar] in the listing scenario. *)
Lemma load_local_plugins_records_witness :
  (status record_bar = true ↔ is_Some (files (fs state_listing) !! "bar.py"))
  ∧ installed record_bar = true
  ∧ version record_bar = Some float_1_0.
Proof.
  destruct (load_local_plugins_records state_listing
              (exec load_local_plugins state_listing) [record_foo; record_bar]
              record_bar) as (H1 & H2 & H3).
  - by vm_compute.
  - apply list_elem_of_In. right. by left.
  - split; [exact H1|]. split; reflexivity.
Defined.

(** When [load_local_plugins] returns, it has only read the disk and has
    left the remote catalog alone; its result does not depend on the snapshot
    held before, and a second call right after the first returns the same
    list and changes nothing. *)
Theorem load_local_plugins_idempotent (s s' : state) (l : list LocalPlugin) :
  load_local_plugins s = (Return l, s') →
  fs s' = fs s
  ∧ remote_plugins (self s') = remote_plugins (self s)
  ∧ remote_version_map (self s') = remote_version_map (self s)
  ∧ (∀ ps, result load_local_plugins
             {| self := set_plugins ps (self s); fs := fs s |} = Return l)
  ∧ load_local_plugins s' = (Return l, s').
Proof.
  rewrite load_local_plugins_eq. intros [= <- <-]. simpl.
  split; [done|].
  destruct s as [[vm rvm ps rps] [f vj rr wr]]. unfold reloaded. simpl.
  split; [by destruct vj|]. split; [by destruct vj|]. split.
  - intros ps'. unfold result. rewrite load_local_plugins_eq. unfold reloaded. simpl.
    by destruct vj.
  - rewrite load_local_plugins_eq. unfold reloaded. simpl. by destruct vj.
Qed.

(** Listing the scenario directory twice. *)
Lemma load_local_plugins_idempotent_witness :
  load_local_plugins (exec load_local_plugins state_listing)
  = (Return [record_foo; record_bar], exec load_local_plugins state_listing).
Proof.
  destruct (load_local_plugins_idempotent state_listing
              (exec load_local_plugins state_listing) [record_foo; record_bar])
    as (_ & _ & _ & _ & H); [by vm_compute|exact H].
Defined.

Lemma length_omap_filter {A B} (f : A → option B) (l : list A) :
  length (omap f l) = length (List.filter (λ x, bool_decide (is_Some (f x))) l).
Proof.
  induction l as [|x l IH]; [done|]. simpl.
  destruct (f x); simpl; f_equal; exact IH.
Qed.

Lemma filter_ext_bool {A} (f g : A → bool) (l : list A) :
  (∀ x, f x = g x) → List.filter f l = List.filter g l.
Proof.
  intros H. induction l as [|x l IH]; [done|]. simpl. by rewrite H, IH.
Qed.

(** The snapshot has one record per plugin file, not per name: as many
    records as the directory has entries that end in [.py] or in
    [.py.disabled]; no other file, [version.json] included, gives one. *)
Theorem load_local_plugins_one_record_per_file (s : state) :
  ∃ l, result load_local_plugins s = Return l
       ∧ length l
         = length (List.filter
                     (λ e, endswith e ".py" || endswith e ".py.disabled")
                     (map_to_list (files (fs s))).*1).
Proof.
  unfold result. rewrite load_local_plugins_eq. simpl.
  eexists. split; [reflexivity|].
  rewrite length_omap_filter. unfold listing.
  rewrite List.filter_app, length_app.
  replace (length (List.filter _
             match version_json (fs s) with
             | Some _ => ["version.json"]
             | None => []
             end)) with 0%nat.
  - rewrite Nat.add_0_r. f_equal. apply filter_ext_bool.
    intros e. unfold entry_name.
    by destruct (endswith e ".py" || endswith e ".py.disabled").
  - by destruct (version_json (fs s)).
Qed.

(** ** Enabling and disabling through the manager *)

Lemma enable_plugin_eq (os : platform) (n : string) (s : state) :
  enable_plugin os n s
  = match get_local_plugin (self s) n with
    | Some p => LocalPlugin_enable os p s
    | None => (Return false, s)
    end.
Proof.
  unfold enable_plugin, bind, get_self. simpl.
  by destruct (get_local_plugin (self s) n).
Qed.

Lemma disable_plugin_eq (os : platform) (n : string) (s : state) :
  disable_plugin os n s
  = match get_local_plugin (self s) n with
    | Some p => LocalPlugin_disable os p s
    | None => (Return false, s)
    end.
Proof.
  unfold disable_plugin, bind, get_self. simpl.
  by destruct (get_local_plugin (self s) n).
Qed.

(** What a successful wrapped rename did. *)
Lemma try_rename_true (os : platform) (src dst : string) (s s' : state) :
  src ≠ dst →
  try_except (os_rename os src dst ;; ret true) (ret false) s = (Return true, s') →
  ∃ data, files (fs s) !! src = Some data
          ∧ (os = Windows → files (fs s) !! dst = None)
          ∧ files (fs s') !! dst = Some data
          ∧ files (fs s') !! src = None
          ∧ (∀ path, path ≠ src → path ≠ dst →
               files (fs s') !! path = files (fs s) !! path)
          ∧ self s' = self s
          ∧ version_json (fs s') = version_json (fs s).
Proof.
  intros Hne. rewrite try_rename_eq, os_rename_eq.
  destruct (files (fs s) !! src) as [data|] eqn:Hsrc; [|done].
  assert (Hok : ∀ t,
            (Return true,
             {| self := self s;
                fs := set_files (<[dst := data]> (delete src (files (fs s)))) (fs s) |})
            = (Return true, t) →
            files (fs t) !! dst = Some data
            ∧ files (fs t) !! src = None
            ∧ (∀ path, path ≠ src → path ≠ dst →
                 files (fs t) !! path = files (fs s) !! path)
            ∧ self t = self s
            ∧ version_json (fs t) = version_json (fs s)).
  { intros t [= <-]. simpl. split; [apply lookup_insert_eq|]. split.
    - rewrite lookup_insert_ne by done. apply lookup_delete_eq.
    - split; [|done]. intros path H1 H2.
      rewrite lookup_insert_ne by done. by rewrite lookup_delete_ne. }
  destruct (files (fs s) !! dst) as [old|] eqn:Hdst, os; simpl; try done;
    intros H; exists data; (split; [done|]); (split; [done|]); by apply Hok.
Qed.

(** When [enable_plugin(name)] returns true, the disabled file has become
    the active file, content unchanged, and the disabled path is free;
    every other file, the manager object (the ledger and the snapshot, whose
    record keeps its old status) and [version.json] are as before. *)
Theorem enable_plugin_success (os : platform) (n : string) (s s' : state) :
  enable_plugin os n s = (Return true, s') →
  ∃ data, files (fs s) !! (n +:+ ".py.disabled") = Some data
          ∧ files (fs s') !! (n +:+ ".py") = Some data
          ∧ files (fs s') !! (n +:+ ".py.disabled") = None
          ∧ (∀ path, path ≠ n +:+ ".py.disabled" → path ≠ n +:+ ".py" →
               files (fs s') !! path = files (fs s) !! path)
          ∧ self s' = self s
          ∧ version_json (fs s') = version_json (fs s).
Proof.
  rewrite enable_plugin_eq.
  destruct (get_local_plugin (self s) n) as [p|] eqn:Hp; [|done].
  destruct (get_local_plugin_name _ _ _ Hp) as [Hn _].
  pose proof (normal_ne_disabled p) as Hne.
  unfold LocalPlugin_enable, normal_path, disabled_path in *. rewrite Hn in *.
  intros H. apply try_rename_true in H; [|done].
  destruct H as (data & H1 & _ & H3 & H4 & H5 & H6 & H7). by exists data.
Qed.

(** When [disable_plugin(name)] returns true, the active file has become the
    disabled file, content unchanged, and the active path is free; every
    other file, the manager object and [version.json] are as before. *)
Theorem disable_plugin_success (os : platform) (n : string) (s s' : state) :
  disable_plugin os n s = (Return true, s') →
  ∃ data, files (fs s) !! (n +:+ ".py") = Some data
          ∧ files (fs s') !! (n +:+ ".py.disabled") = Some data
          ∧ files (fs s') !! (n +:+ ".py") = None
          ∧ (∀ path, path ≠ n +:+ ".py" → path ≠ n +:+ ".py.disabled" →
               files (fs s') !! path = files (fs s) !! path)
          ∧ self s' = self s
          ∧ version_json (fs s') = version_json (fs s).
Proof.
  rewrite disable_plugin_eq.
  destruct (get_local_plugin (self s) n) as [p|] eqn:Hp; [|done].
  destruct (get_local_plugin_name _ _ _ Hp) as [Hn _].
  pose proof (normal_ne_disabled p) as Hne.
  unfold LocalPlugin_disable, normal_path, disabled_path in *. rewrite Hn in *.
  intros H. apply try_rename_true in H; [|done].
  destruct H as (data & H1 & _ & H3 & H4 & H5 & H6 & H7). by exists data.
Qed.

(** The enabling of [bar], evaluated. *)
Lemma enable_plugin_success_witness :
  enable_plugin Posix "bar" state_bar_disabled = (Return true, state_bar_enabled)
  ∧ files (fs state_bar_enabled) !! "bar.py" = Some "print(2)"
  ∧ get_local_plugin (self state_bar_enabled) "bar" = Some record_bar.
Proof.
  assert (H : enable_plugin Posix "bar" state_bar_disabled
              = (Return true, state_bar_enabled)) by (by vm_compute).
  destruct (enable_plugin_success Posix "bar" _ _ H) as (data & H1 & H2 & _).
  split; [exact H|]. split; [|reflexivity].
  vm_compute in H1. injection H1 as <-. exact H2.
Defined.

(** The disabling of [bar], evaluated. *)
Lemma disable_plugin_success_witness :
  disable_plugin Posix "bar" state_bar_enabled = (Return true, state_bar_disabled)
  ∧ files (fs state_bar_disabled) !! "bar.py.disabled" = Some "print(2)".
Proof.
  assert (H : disable_plugin Posix "bar" state_bar_enabled
              = (Return true, state_bar_disabled)) by (by vm_compute).
  destruct (disable_plugin_success Posix "bar" _ _ H) as (data & H1 & H2 & _).
  split; [exact H|]. vm_compute in H1. injection H1 as <-. exact H2.
Defined.





(** ** What an operation on one plugin leaves alone *)





Lemma remove_plugin_only_touches (n : string) (s : state) :
  only_touches n s (exec (remove_plugin n) s).
Proof.
  intros path H1 H2. unfold exec. rewrite remove_plugin_eq.
  destruct (get_local_plugin (self s) n) as [p|] eqn:Hp; [|done].
  destruct (get_local_plugin_name _ _ _ Hp) as [Hn _].
  rewrite LocalPlugin_remove_eq. unfold normal_path, disabled_path. rewrite Hn.
  destruct (remove_refused (fs s) (n +:+ ".py")); [done|].
  destruct (remove_refused (fs s) (n +:+ ".py.disabled")); simpl;
    [by rewrite lookup_delete_ne|].
  destruct (dict_contains (version_map (self s)) n); simpl;
    [destruct (write_refused (fs s) "version.json"); simpl|];
    rewrite lookup_delete_ne by done; by rewrite lookup_delete_ne.
Qed.

(** Whatever its outcome, [install_remote_plugin(name)] changes no file but
    the two of the name and no ledger entry but the name's, and leaves the
    snapshot and the remote catalog alone. *)
Lemma install_remote_plugin_any_outcome
    (G : string) (cg : string → outcome response) (n : string) (s : state) :
  only_touches n s (exec (install_remote_plugin G cg n) s)
  ∧ (∀ n', n' ≠ n →
       version_map (self (exec (install_remote_plugin G cg n) s)) !! n'
       = version_map (self s) !! n')
  ∧ plugins (self (exec (install_remote_plugin G cg n) s)) = plugins (self s)
  ∧ remote_plugins (self (exec (install_remote_plugin G cg n) s))
    = remote_plugins (self s)
  ∧ remote_version_map (self (exec (install_remote_plugin G cg n) s))
    = remote_version_map (self s).
Proof.
  unfold exec, only_touches. rewrite install_remote_plugin_eq.
  destruct (get_remote_plugin (self s) n) as [p|] eqn:Hp; [|done].
  destruct (get_remote_plugin_name _ _ _ Hp) as [Hn _].
  rewrite RemotePlugin_install_eq.
  destruct (cg _) as [html|e]; [|done].
  destruct (status_code html =? 200)%Z; [|done].
  rewrite LocalPlugin_remove_eq. unfold normal_path, disabled_path. rewrite Hn.
  destruct (remove_refused (fs s) (n +:+ ".py")); [done|].
  destruct (remove_refused (fs s) (n +:+ ".py.disabled")); simpl.
  { split; [|done]. intros path H1 H2. by rewrite lookup_delete_ne. }
  destruct (write_refused (fs s) (n +:+ ".py")); simpl.
  { split; [|done]. intros path H1 H2.
    rewrite lookup_delete_ne by done. by rewrite lookup_delete_ne. }
  destruct (write_refused (fs s) "version.json"); simpl.
  - split; [|split; [|done]].
    + intros path H1 H2. rewrite lookup_insert_ne by done.
      rewrite lookup_delete_ne by done. by rewrite lookup_delete_ne.
    + intros n' Hn'. by rewrite lookup_insert_ne.
  - split; [|split; [|done]].
    + intros path H1 H2. rewrite lookup_insert_ne by done.
      rewrite lookup_delete_ne by done. by rewrite lookup_delete_ne.
    + intros n' Hn'. by rewrite lookup_insert_ne.
Qed.

Lemma install_remote_plugin_only_touches
    (G : string) (cg : string → outcome response) (n : string) (s : state) :
  only_touches n s (exec (install_remote_plugin G cg n) s).
Proof. apply install_remote_plugin_any_outcome. Qed.

Lemma update_remote_plugin_only_touches
    (G : string) (cg : string → outcome response) (n : string) (s : state) :
  only_touches n s (exec (update_remote_plugin G cg n) s).
Proof.
  unfold exec. rewrite update_remote_plugin_eq.
  destruct (plugin_need_update (self s) n); [|by intros ?].
  apply install_remote_plugin_only_touches.
Qed.

(** Only the two files of a name changed: another plugin's pair did not. *)
Lemma only_touches_other (n : string) (q : LocalPlugin) (s s' : state) :
  name q ≠ n → only_touches n s s' → file_pair q s' = file_pair q s.
Proof.
  intros Hq H. unfold file_pair, normal_path, disabled_path.
  rewrite !H; [done|..]; intros E;
    first [ by apply py_not_disabled in E
          | symmetry in E; by apply py_not_disabled in E
          | by apply app_inj_r in E ].
Qed.



(** A successful [remove_plugin(name)] changes nothing but the two files and
    the ledger entry of the name: every other file and every other ledger
    entry stay, and so do the snapshot and the remote catalog.
    [version.json] is rewritten, to the new ledger, only when the name had an
    entry; otherwise the file is not touched. *)
Theorem remove_plugin_frame (n : string) (s s' : state) :
  remove_plugin n s = (Return true, s') →
  only_touches n s s'
  ∧ (∀ n', n' ≠ n → version_map (self s') !! n' = version_map (self s) !! n')
  ∧ plugins (self s') = plugins (self s)
  ∧ remote_plugins (self s') = remote_plugins (self s)
  ∧ remote_version_map (self s') = remote_version_map (self s)
  ∧ (is_Some (version_map (self s) !! n) →
     version_json (fs s') = Some (version_map (self s')))
  ∧ (version_map (self s) !! n = None →
     version_json (fs s') = version_json (fs s)).
Proof.
  intros H.
  pose proof (remove_plugin_only_touches n s) as Ho.
  unfold exec in Ho. rewrite H in Ho. split; [exact Ho|]. clear Ho.
  apply remove_plugin_true in H as (p & _ & _ & _ & ->).
  destruct (dict_contains (version_map (self s)) n) eqn:Hc; simpl.
  - split; [intros n' Hn'; by apply lookup_delete_ne|].
    do 4 (split; [done|]).
    intros Hnone. apply dict_contains_true in Hc.
    rewrite Hnone in Hc. by destruct Hc.
  - apply dict_contains_false in Hc. do 4 (split; [done|]).
    split; [|done]. intros [x Hx]. congruence.
Qed.

(** The removal of the listed [foo], evaluated against the frame. *)
Lemma remove_plugin_frame_witness :
  only_touches "foo" state_foo_listed state_foo_removed
  ∧ version_json (fs state_foo_removed)
    = Some (version_map (self state_foo_removed)).
Proof.
  destruct (remove_plugin_frame "foo" state_foo_listed state_foo_removed)
    as (H1 & _ & _ & _ & _ & H2 & _); [by vm_compute|].
  split; [exact H1|]. apply H2. vm_compute. by eexists.
Defined.

(** ** More on installing *)

(** A successful [install_remote_plugin(name)] leaves the plugin enabled:
    a disabled copy of the name is removed. It changes no file but the two
    of the name and no ledger entry but the name's, and it updates neither
    the local snapshot nor the remote catalog. *)
Theorem install_remote_plugin_frame
    (G : string) (cg : string → outcome response) (n : string) (s s' : state) :
  install_remote_plugin G cg n s = (Return true, s') →
  files (fs s') !! (n +:+ ".py.disabled") = None
  ∧ only_touches n s s'
  ∧ (∀ n', n' ≠ n → version_map (self s') !! n' = version_map (self s) !! n')
  ∧ plugins (self s') = plugins (self s)
  ∧ remote_plugins (self s') = remote_plugins (self s)
  ∧ remote_version_map (self s') = remote_version_map (self s).
Proof.
  intros H.
  pose proof (install_remote_plugin_any_outcome G cg n s) as Ho.
  unfold exec in Ho. rewrite H in Ho. simpl in Ho. split; [|exact Ho].
  apply install_remote_plugin_true in H
    as (p & html & Hp & _ & _ & _ & _ & _ & _ & ->).
  destruct (get_remote_plugin_name _ _ _ Hp) as [Hn _].
  pose proof (normal_ne_disabled p) as Hne.
  unfold normal_path, disabled_path in *. rewrite Hn in *. simpl.
  rewrite lookup_insert_ne by done. apply lookup_delete_eq.
Qed.

(** Installing [foo] over its disabled copy. *)
Lemma install_remote_plugin_frame_witness :
  file_pair (plugin_named "foo")
    (exec (install_remote_plugin "https://example.org/" client_get_ok "foo")
       state_catalog_foo_outdated)
  = (Some "print(2)", None).
Proof.
  destruct (install_remote_plugin_frame "https://example.org/" client_get_ok "foo"
              state_catalog_foo_outdated
              (exec (install_remote_plugin "https://example.org/" client_get_ok "foo")
                 state_catalog_foo_outdated)) as (H & _); [by vm_compute|].
  unfold file_pair, normal_path, disabled_path. simpl name.
  rewrite H. by vm_compute.
Defined.

(** When the transport raises during the download, [install_remote_plugin]
    and a due [update_remote_plugin] raise the same exception, and nothing
    has been removed or written: the state is the one before the call. *)
Theorem install_remote_plugin_transport_error
    (G : string) (cg : string → outcome response) (n : string) (s : state)
    (p : RemotePlugin) (e : exn) :
  get_remote_plugin (self s) n = Some p →
  cg (source_url G n) = Raise e →
  install_remote_plugin G cg n s = (Raise e, s)
  ∧ (plugin_need_update (self s) n = true →
     update_remote_plugin G cg n s = (Raise e, s)).
Proof.
  intros Hp Hget.
  destruct (get_remote_plugin_name _ _ _ Hp) as [Hn _].
  rewrite update_remote_plugin_eq, install_remote_plugin_eq, Hp.
  rewrite RemotePlugin_install_eq, Hn, Hget.
  split; [done|]. by intros ->.
Qed.

(** The download of [foo] over a transport that is down. *)
Lemma install_remote_plugin_transport_error_witness :
  install_remote_plugin "https://example.org/" client_get_down "foo"
    state_catalog_foo_outdated
  = (Raise TransportError, state_catalog_foo_outdated)
  ∧ update_remote_plugin "https://example.org/" client_get_down "foo"
      state_catalog_foo_outdated
    = (Raise TransportError, state_catalog_foo_outdated).
Proof.
  destruct (install_remote_plugin_transport_error "https://example.org/"
              client_get_down "foo" state_catalog_foo_outdated remote_foo
              TransportError eq_refl eq_refl) as [H1 H2].
  split; [exact H1|]. apply H2. by vm_compute.
Defined.

(** For a name the remote snapshot does not list, [install_remote_plugin]
    and [update_remote_plugin] return false and change nothing, before any
    download: the result is the same for every transport. *)
Theorem install_remote_plugin_unknown
    (G : string) (cg : string → outcome response) (n : string) (s : state) :
  get_remote_plugin (self s) n = None →
  install_remote_plugin G cg n s = (Return false, s)
  ∧ update_remote_plugin G cg n s = (Return false, s).
Proof.
  intros Hp. rewrite update_remote_plugin_eq, install_remote_plugin_eq, Hp.
  split; [done|]. by destruct (plugin_need_update (self s) n).
Qed.

(** [bar] is not in the catalog that lists [foo], even over a dead transport. *)
Lemma install_remote_plugin_unknown_witness :
  install_remote_plugin "https://example.org/" client_get_down "bar" state_catalog_foo
  = (Return false, state_catalog_foo).
Proof.
  apply (install_remote_plugin_unknown "https://example.org/" client_get_down "bar"
           state_catalog_foo). reflexivity.
Defined.

(** ** Updating *)

Lemma SFcompare_refl_not_Lt (x : spec_float) : SFcompare x x ≠ Some Lt.
Proof.
  destruct x as [s|s| |s m e]; simpl; try done; try (by destruct s).
  rewrite Z.compare_refl.
  change (PosDef.Pos.compare_cont Eq m m) with (Pos.compare m m).
  rewrite Pos.compare_refl. by destruct s.
Qed.

Lemma SFltb_irrefl (x : spec_float) : SFltb x x = false.
Proof.
  unfold SFltb. pose proof (SFcompare_refl_not_Lt x) as H.
  by destruct (SFcompare x x) as [[]|].
Qed.

Lemma SFltb_asym (x y : spec_float) : SFltb x y = true → SFltb y x = false.
Proof.
  unfold SFltb.
  destruct x as [s1|s1| |s1 m1 e1], y as [s2|s2| |s2 m2 e2]; simpl;
    try done; try (by destruct s1); try (by destruct s2); try (by destruct s1, s2).
  change (PosDef.Pos.compare_cont Eq m1 m2) with (Pos.compare m1 m2).
  change (PosDef.Pos.compare_cont Eq m2 m1) with (Pos.compare m2 m1).
  rewrite (Z.compare_antisym e1 e2), (Pos.compare_antisym m1 m2).
  destruct s1, s2; try done;
    destruct (e1 ?= e2)%Z; simpl; try done; by destruct (m1 ?= m2)%positive.
Qed.

(** [plugin_need_update] never asks for a downgrade: when the cached remote
    version is strictly below the recorded local version, no update is due. *)
Theorem plugin_need_update_never_downgrades
    (m : PluginManager) (n : string) (lv rv : spec_float) :
  dict_get (version_map m) n = Some lv →
  dict_get (remote_version_map m) n = Some rv →
  SFltb rv lv = true →
  plugin_need_update m n = false.
Proof.
  intros Hl Hr Hlt. rewrite plugin_need_update_eq, Hl, Hr.
  rewrite (SFltb_asym _ _ Hlt). by rewrite andb_false_r.
Qed.

(** The ledger is at [2.0], the catalog at [1.0]. *)
Lemma plugin_need_update_never_downgrades_witness :
  plugin_need_update
    (manager_of {[ "foo" := Some float_2_0 ]} {[ "foo" := Some float_1_0 ]} []) "foo"
  = false.
Proof.
  apply (plugin_need_update_never_downgrades _ "foo" float_2_0 float_1_0);
    by vm_compute.
Defined.

(** What [plugin_need_update] being true says of the two stored versions. *)
Lemma plugin_need_update_true (m : PluginManager) (n : string) :
  plugin_need_update m n = true →
  ∃ lv rv, dict_get (version_map m) n = Some lv
           ∧ dict_get (remote_version_map m) n = Some rv
           ∧ SFeqb lv float_zero = false
           ∧ SFeqb rv float_zero = false
           ∧ SFltb lv rv = true.
Proof.
  rewrite plugin_need_update_eq.
  destruct (dict_get (version_map m) n) as [lv|]; [|done].
  destruct (dict_get (remote_version_map m) n) as [rv|]; [|done].
  intros [[H1 H2]%andb_prop H3]%andb_prop.
  exists lv, rv. repeat split; try done; by apply negb_true_iff.
Qed.

Lemma dict_get_None_of_lookup {V} (d : gmap string (option V)) (k : string) :
  d !! k = None → dict_get d k = None.
Proof. unfold dict_get. by intros ->. Qed.

Lemma dict_get_Some_lookup {V} (d : gmap string (option V)) (k : string) (v : V) :
  dict_get d k = Some v → d !! k = Some (Some v).
Proof. unfold dict_get. destruct (d !! k) as [[]|]; naive_solver. Qed.

(** When [update_remote_plugin(name)] returns true, the name was installed
    at a non-zero version strictly below a non-zero cached remote version,
    the plugin has been installed anew from its catalog record, whose
    version the ledger now holds, and its active file exists. *)
Theorem update_remote_plugin_success
    (G : string) (cg : string → outcome response) (n : string) (s s' : state) :
  update_remote_plugin G cg n s = (Return true, s') →
  ∃ (lv rv : spec_float) (p : RemotePlugin),
    version_map (self s) !! n = Some (Some lv)
    ∧ remote_version_map (self s) !! n = Some (Some rv)
    ∧ SFltb lv rv = true
    ∧ get_remote_plugin (self s) n = Some p
    ∧ install_remote_plugin G cg n s = (Return true, s')
    ∧ version_map (self s') !! n = Some (version p)
    ∧ is_Some (files (fs s') !! (n +:+ ".py")).
Proof.
  rewrite update_remote_plugin_eq.
  destruct (plugin_need_update (self s) n) eqn:Hneed; [|done].
  apply plugin_need_update_true in Hneed as (lv & rv & Hl & Hr & _ & _ & Hlt).
  intros Hinst. exists lv, rv.
  pose proof Hinst as Hi. apply install_remote_plugin_true in Hi
    as (p & html & Hp & _ & _ & _ & _ & _ & _ & Hs').
  exists p.
  destruct (get_remote_plugin_name _ _ _ Hp) as [Hn _]. rewrite Hn in Hs'.
  split; [by apply dict_get_Some_lookup|]. split; [by apply dict_get_Some_lookup|].
  do 3 (split; [done|]). subst s'. simpl.
  split; [apply lookup_insert_eq|]. rewrite lookup_insert_eq. by eexists.
Qed.

(** The update of the outdated [foo], evaluated. *)
Lemma update_remote_plugin_success_witness :
  result (update_remote_plugin "https://example.org/" client_get_ok "foo")
    state_catalog_foo_outdated = Return true
  ∧ version_map
      (self (exec (update_remote_plugin "https://example.org/" client_get_ok "foo")
               state_catalog_foo_outdated)) !! "foo"
    = Some (Some float_2_0).
Proof.
  destruct (update_remote_plugin_success "https://example.org/" client_get_ok "foo"
              state_catalog_foo_outdated
              (exec (update_remote_plugin "https://example.org/" client_get_ok "foo")
                 state_catalog_foo_outdated))
    as (lv & rv & p & _ & _ & _ & Hp & _ & Hv & _); [by vm_compute|].
  split; [by vm_compute|].
  vm_compute in Hp. injection Hp as <-. exact Hv.
Defined.

(** An update settles: when the cached remote version of a name is the
    version of its catalog record, a second [update_remote_plugin] right
    after a successful one returns false and changes nothing, whatever the
    transport answers. *)
Theorem update_remote_plugin_settles
    (G : string) (cg cg' : string → outcome response) (n : string) (s s' : state)
    (p : RemotePlugin) :
  get_remote_plugin (self s) n = Some p →
  dict_get (remote_version_map (self s)) n = version p →
  update_remote_plugin G cg n s = (Return true, s') →
  update_remote_plugin G cg' n s' = (Return false, s').
Proof.
  intros Hp Hcache. rewrite !update_remote_plugin_eq.
  destruct (plugin_need_update (self s) n); [|done].
  intros H. apply install_remote_plugin_true in H
    as (p' & html & Hp' & _ & _ & _ & _ & _ & _ & ->).
  rewrite Hp in Hp'. injection Hp' as <-.
  rewrite plugin_need_update_eq. simpl.
  unfold dict_get at 1. rewrite lookup_insert_eq, Hcache.
  destruct (version p) as [v|]; [|done].
  by rewrite SFltb_irrefl, andb_false_r.
Qed.

(** Updating [foo] twice. *)
Lemma update_remote_plugin_settles_witness :
  update_remote_plugin "https://example.org/" client_get_ok "foo"
    (exec (update_remote_plugin "https://example.org/" client_get_ok "foo")
       state_catalog_foo_outdated)
  = (Return false,
     exec (update_remote_plugin "https://example.org/" client_get_ok "foo")
       state_catalog_foo_outdated).
Proof.
  apply (update_remote_plugin_settles "https://example.org/" client_get_ok client_get_ok
           "foo" state_catalog_foo_outdated _ remote_foo);
    [reflexivity|by vm_compute|by vm_compute].
Defined.

(** ** Updating everything *)

Lemma update_all_remote_plugin_eq
    (G : string) (cg : string → outcome response) (s : state) :
  update_all_remote_plugin G cg s = update_all_loop G cg (remote_plugins (self s)) [] s.
Proof. reflexivity. Qed.

Lemma update_all_loop_cons
    (G : string) (cg : string → outcome response) (i : RemotePlugin)
    (l acc : list RemotePlugin) (s : state) :
  update_all_loop G cg (i :: l) acc s
  = match update_remote_plugin G cg (name i) s with
    | (Return ok, s1) =>
        update_all_loop G cg l (if ok then acc ++ [i] else acc)%list s1
    | (Raise e, s1) => (Raise e, s1)
    end.
Proof. reflexivity. Qed.

(** Over a stretch of plugins none of which is due, the loop does nothing. *)
Lemma update_all_loop_skip
    (G : string) (cg : string → outcome response)
    (l1 l2 acc : list RemotePlugin) (s : state) :
  (∀ i : RemotePlugin, i ∈ l1 → plugin_need_update (self s) (name i) = false) →
  update_all_loop G cg (l1 ++ l2) acc s = update_all_loop G cg l2 acc s.
Proof.
  induction l1 as [|i l1 IH]; intros H; [done|].
  rewrite <- app_comm_cons, update_all_loop_cons, update_remote_plugin_eq.
  rewrite H by (by left). apply IH. intros j Hj. apply H. by right.
Qed.

(** When no plugin of the remote snapshot is due, [update_all_remote_plugin]
    returns the empty list and changes nothing, without any download: the
    result is the same for every transport. *)
Theorem update_all_nothing_due
    (G : string) (cg : string → outcome response) (s : state) :
  (∀ i : RemotePlugin, i ∈ remote_plugins (self s) →
     plugin_need_update (self s) (name i) = false) →
  update_all_remote_plugin G cg s = (Return [], s).
Proof.
  intros H. rewrite update_all_remote_plugin_eq.
  rewrite <- (app_nil_r (remote_plugins (self s))).
  by rewrite update_all_loop_skip.
Qed.

(** The catalog lists [foo] and nothing is installed. *)
Lemma update_all_nothing_due_witness :
  update_all_remote_plugin "https://example.org/" client_get_down state_catalog_foo
  = (Return [], state_catalog_foo).
Proof.
  apply (update_all_nothing_due "https://example.org/" client_get_down state_catalog_foo).
  intros i Hi. apply list_elem_of_singleton in Hi as ->. reflexivity.
Defined.

(** A transport exception is not skipped: when the first plugin that is due
    cannot be downloaded because the transport raises, the whole batch
    raises that exception, with the state as it was. *)
Theorem update_all_aborts_on_transport_error
    (G : string) (cg : string → outcome response) (s : state)
    (l1 l2 : list RemotePlugin) (i p : RemotePlugin) (e : exn) :
  remote_plugins (self s) = (l1 ++ i :: l2)%list →
  (∀ j : RemotePlugin, j ∈ l1 → plugin_need_update (self s) (name j) = false) →
  plugin_need_update (self s) (name i) = true →
  get_remote_plugin (self s) (name i) = Some p →
  cg (source_url G (name i)) = Raise e →
  update_all_remote_plugin G cg s = (Raise e, s).
Proof.
  intros Hl H1 Hi Hp Hget.
  rewrite update_all_remote_plugin_eq, Hl, update_all_loop_skip by done.
  rewrite update_all_loop_cons, update_remote_plugin_eq, Hi.
  rewrite install_remote_plugin_eq, Hp, RemotePlugin_install_eq.
  destruct (get_remote_plugin_name _ _ _ Hp) as [Hn _]. by rewrite Hn, Hget.
Qed.

(** The batch over the outdated [foo] with the transport down. *)
Lemma update_all_aborts_on_transport_error_witness :
  update_all_remote_plugin "https://example.org/" client_get_down
    state_catalog_foo_outdated
  = (Raise TransportError, state_catalog_foo_outdated).
Proof.
  apply (update_all_aborts_on_transport_error "https://example.org/" client_get_down
           state_catalog_foo_outdated [] [] remote_foo remote_foo TransportError);
    try reflexivity.
  intros j Hj. by apply not_elem_of_nil in Hj.
Defined.

(** One [update_remote_plugin] keeps a name that is not in the ledger out
    of it, and leaves the remote snapshot alone. *)
Lemma update_remote_plugin_keeps_uninstalled
    (G : string) (cg : string → outcome response) (k n : string) (s : state) :
  version_map (self s) !! n = None →
  version_map (self (exec (update_remote_plugin G cg k) s)) !! n = None
  ∧ file_pair (plugin_named n) (exec (update_remote_plugin G cg k) s)
    = file_pair (plugin_named n) s.
Proof.
  intros Hn. destruct (decide (k = n)) as [->|Hk].
  - unfold exec. rewrite update_remote_plugin_eq, plugin_need_update_eq.
    by rewrite (dict_get_None_of_lookup _ _ Hn).
  - split.
    + unfold exec. rewrite update_remote_plugin_eq.
      destruct (plugin_need_update (self s) k); [|done].
      destruct (install_remote_plugin_any_outcome G cg k s) as (_ & Hv & _).
      unfold exec in Hv. rewrite Hv by done. exact Hn.
    + apply (only_touches_other k); [simpl; congruence|].
      apply update_remote_plugin_only_touches.
Qed.




Lemma update_all_loop_sublist
    (G : string) (cg : string → outcome response)
    (l acc res : list RemotePlugin) (s s' : state) :
  update_all_loop G cg l acc s = (Return res, s') →
  ∃ upd, res = (acc ++ upd)%list
         ∧ upd `sublist_of` l
         ∧ ∀ i : RemotePlugin, i ∈ upd → is_Some (version_map (self s) !! name i).
Proof.
  revert acc s. induction l as [|i l IH]; intros acc s H.
  - injection H as <- _. exists []. split; [by rewrite app_nil_r|].
    split; [done|]. intros i Hi. by apply not_elem_of_nil in Hi.
  - rewrite update_all_loop_cons in H.
    destruct (update_remote_plugin G cg (name i) s) as [[ok|e] s1] eqn:Hu; [|done].
    destruct (IH _ _ H) as (upd & Hres & Hsub & Hin).
    assert (Hback : ∀ j : RemotePlugin, j ∈ upd →
              is_Some (version_map (self s) !! name j)).
    { intros j Hj. destruct (version_map (self s) !! name j) eqn:Hv; [by eexists|].
      destruct (update_remote_plugin_keeps_uninstalled G cg (name i) (name j) s Hv)
        as [Hv1 _].
      unfold exec in Hv1. rewrite Hu in Hv1. simpl in Hv1.
      destruct (Hin j Hj) as [x Hx]. congruence. }
    destruct ok.
    + exists (i :: upd). split; [by rewrite Hres, <- app_assoc|].
      split; [by apply sublist_skip|].
      intros j [->|Hj]%elem_of_cons; [|by apply Hback].
      rewrite update_remote_plugin_eq in Hu.
      destruct (plugin_need_update (self s) (name i)) eqn:Hneed; [|done].
      apply plugin_need_update_true in Hneed as (lv & _ & Hl & _).
      apply dict_get_Some_lookup in Hl. by eexists.
    + exists upd. split; [done|]. split; [by apply sublist_cons|done].
Qed.

(** The list [update_all_remote_plugin] returns is a sublist of the remote
    snapshot, in its order, and holds only plugins that had a ledger entry
    before the batch. *)
Theorem update_all_returns_sublist
    (G : string) (cg : string → outcome response) (s s' : state)
    (res : list RemotePlugin) :
  update_all_remote_plugin G cg s = (Return res, s') →
  res `sublist_of` remote_plugins (self s)
  ∧ ∀ i : RemotePlugin, i ∈ res → is_Some (version_map (self s) !! name i).
Proof.
  rewrite update_all_remote_plugin_eq. intros H.
  apply update_all_loop_sublist in H as (upd & -> & Hsub & Hin). done.
Qed.

(** The batch over the outdated [foo] returns its record. *)
Lemma update_all_returns_sublist_witness :
  [remote_foo] `sublist_of` remote_plugins (self state_catalog_foo_outdated).
Proof.
  destruct (update_all_returns_sublist "https://example.org/" client_get_ok
              state_catalog_foo_outdated
              (exec (update_all_remote_plugin "https://example.org/" client_get_ok)
                 state_catalog_foo_outdated) [remote_foo]) as [H _];
    [by vm_compute|exact H].
Defined.




(** ** The remote catalog, continued *)

Lemma versions_of_app (a b : list RemotePlugin) (acc : ledger) :
  versions_of (a ++ b) acc = versions_of b (versions_of a acc).
Proof. unfold versions_of. apply foldl_app. Qed.

Lemma versions_of_dom (ps : list RemotePlugin) (acc : ledger) (n : string) :
  is_Some (versions_of ps acc !! n)
  ↔ is_Some (acc !! n) ∨ n ∈ (λ p : RemotePlugin, name p) <$> ps.
Proof.
  revert acc. induction ps as [|q ps IH]; intros acc; simpl.
  - split; [by left|]. intros [H|H]; [done|]. by apply not_elem_of_nil in H.
  - rewrite IH, elem_of_cons. destruct (decide (name q = n)) as [<-|Hne].
    + rewrite lookup_insert_eq. split; [intros _; right; by left|].
      intros _. left. by eexists.
    + rewrite lookup_insert_ne by done. split.
      * intros [H|H]; [by left|right; by right].
      * intros [H|[H|H]]; [by left|by destruct Hne|by right].
Qed.

Lemma find_remote_app (l1 l2 : list RemotePlugin) (n : string) :
  (∀ y : RemotePlugin, y ∈ l1 → name y ≠ n) →
  List.find (λ x : RemotePlugin, String.eqb (name x) n) (l1 ++ l2)
  = List.find (λ x : RemotePlugin, String.eqb (name x) n) l2.
Proof.
  induction l1 as [|y l1 IH]; intros H; [done|]. simpl.
  destruct (String.eqb (name y) n) eqn:E.
  - apply String.eqb_eq in E. destruct (H y); [by left|done].
  - apply IH. intros z Hz. apply H. by right.
Qed.

(** [load_remote_plugins] always returns one record per descriptor, in the
    order of the fetched list, and replaces the cache with it: the remote
    snapshot is the returned list, and the version dictionary has an entry
    exactly for the fetched names, entries of an earlier catalog being
    dropped. Each record's status says whether the active file of its name
    exists. The ledger, the local snapshot and the disk are not touched. *)
Theorem load_remote_plugins_replaces_cache (l : list descriptor) (s : state) :
  ∃ ps, result (load_remote_plugins l) s = Return ps
        ∧ remote_plugins (self (exec (load_remote_plugins l) s)) = ps
        ∧ (λ p : RemotePlugin, name p) <$> ps = d_name <$> l
        ∧ (λ p : RemotePlugin, version p) <$> ps = d_version <$> l
        ∧ (∀ p : RemotePlugin, p ∈ ps →
             (status p = true ↔ is_Some (files (fs s) !! normal_path p)))
        ∧ (∀ n, is_Some (remote_version_map (self (exec (load_remote_plugins l) s)) !! n)
                ↔ n ∈ d_name <$> l)
        ∧ fs (exec (load_remote_plugins l) s) = fs s
        ∧ version_map (self (exec (load_remote_plugins l) s)) = version_map (self s)
        ∧ plugins (self (exec (load_remote_plugins l) s)) = plugins (self s).
Proof.
  unfold result, exec. rewrite load_remote_plugins_eq. simpl.
  eexists. split; [reflexivity|]. split; [done|].
  split; [by rewrite <- list_fmap_compose|].
  split; [by rewrite <- list_fmap_compose|]. split.
  { intros p (x & -> & _)%list_elem_of_fmap. simpl. apply bool_decide_eq_true. }
  split; [|done]. intros n. rewrite versions_of_dom, <- list_fmap_compose.
  rewrite lookup_empty. split; [|by right].
  intros [[x Hx]|H]; [done|exact H].
Qed.

(** With a name listed more than once the two caches disagree: the record
    [get_remote_plugin] finds for it is the first of the fetched list, and
    the version [remote_version_map] holds for it is the one of the last. *)
Theorem load_remote_plugins_duplicates (l1 l2 : list descriptor) (x : descriptor)
    (s : state) :
  ((∀ y, y ∈ l1 → d_name y ≠ d_name x) →
   ∃ p : RemotePlugin,
     get_remote_plugin (self (exec (load_remote_plugins (l1 ++ x :: l2)) s)) (d_name x)
     = Some p
     ∧ name p = d_name x ∧ version p = d_version x
     ∧ section p = d_section x ∧ maintainer p = d_maintainer x
     ∧ size p = d_size x ∧ supported p = d_supported x ∧ des p = d_des x)
  ∧ ((∀ y, y ∈ l2 → d_name y ≠ d_name x) →
     remote_version_map (self (exec (load_remote_plugins (l1 ++ x :: l2)) s))
       !! d_name x
     = Some (d_version x)).
Proof.
  unfold exec. rewrite load_remote_plugins_eq. simpl.
  rewrite fmap_app, fmap_cons. split.
  - intros H. exists (remote_record (fs s) x). split; [|done].
    unfold get_remote_plugin. simpl.
    rewrite find_remote_app.
    + simpl. by rewrite String.eqb_refl.
    + intros y (z & -> & Hz)%list_elem_of_fmap. simpl. by apply H.
  - intros H. rewrite versions_of_app. simpl.
    rewrite versions_of_other; [apply lookup_insert_eq|].
    intros p (z & -> & Hz)%list_elem_of_fmap. simpl. by apply H.
Qed.

(** [bar] listed at [1.0] and then at [2.0]: the record is the first one,
    the cached version the last one's. *)
Lemma load_remote_plugins_duplicates_witness :
  ((λ p : RemotePlugin, version p) <$> get_remote_plugin
     (self (exec (load_remote_plugins [descriptor_bar_old; descriptor_bar])
              state_bar_outdated)) "bar")
  = Some (Some float_1_0)
  ∧ remote_version_map
      (self (exec (load_remote_plugins [descriptor_bar_old; descriptor_bar])
               state_bar_outdated)) !! "bar"
    = Some (Some float_2_0).
Proof.
  split.
  - destruct (load_remote_plugins_duplicates [] [descriptor_bar] descriptor_bar_old
                state_bar_outdated) as [H _].
    destruct H as (p & Hp & _ & Hv & _).
    + intros y Hy. by apply not_elem_of_nil in Hy.
    + simpl app in Hp. simpl d_name in Hp.
      etrans; [exact (f_equal (fmap (λ p : RemotePlugin, version p)) Hp)|].
      exact (f_equal Some Hv).
  - destruct (load_remote_plugins_duplicates [descriptor_bar_old] [] descriptor_bar
                state_bar_outdated) as [_ H].
    apply H. intros y Hy. by apply not_elem_of_nil in Hy.
Defined.

(** With one descriptor per name the two caches agree: after the fetch, the
    version cached for a name is the version of the record found for it. *)
Theorem load_remote_plugins_consistent
    (l : list descriptor) (s s' : state) (ps : list RemotePlugin) (n : string)
    (p : RemotePlugin) :
  NoDup (d_name <$> l) →
  load_remote_plugins l s = (Return ps, s') →
  get_remote_plugin (self s') n = Some p →
  remote_version_map (self s') !! n = Some (version p)
  ∧ plugin_need_update (self s') n
    = match dict_get (version_map (self s)) n, version p with
      | Some lv, Some rv =>
          negb (SFeqb lv float_zero) && negb (SFeqb rv float_zero) && SFltb lv rv
      | _, _ => false
      end.
Proof.
  intros Hnd Hl Hp.
  pose proof (load_remote_plugins_cached_version l s s' ps n p Hnd Hl Hp) as Hc.
  split; [exact Hc|].
  rewrite plugin_need_update_eq. unfold dict_get at 2. rewrite Hc.
  rewrite load_remote_plugins_eq in Hl. by injection Hl as _ <-.
Qed.

(** The fetch of the catalog that lists [bar] once, at [2.0]. *)
Lemma load_remote_plugins_consistent_witness :
  remote_version_map
    (self (exec (load_remote_plugins [descriptor_bar]) state_bar_outdated)) !! "bar"
  = Some (Some float_2_0)
  ∧ plugin_need_update
      (self (exec (load_remote_plugins [descriptor_bar]) state_bar_outdated)) "bar"
    = true.
Proof.
  destruct (load_remote_plugins_consistent [descriptor_bar] state_bar_outdated
              (exec (load_remote_plugins [descriptor_bar]) state_bar_outdated)
              [remote_record (fs state_bar_outdated) descriptor_bar] "bar"
              (remote_record (fs state_bar_outdated) descriptor_bar))
    as [H1 H2].
  - apply NoDup_singleton.
  - by vm_compute.
  - by vm_compute.
  - split; [exact H1|]. rewrite H2. by vm_compute.
Defined.

(** ** The ledger *)

(** Reading back what [set_local_version(name, version)] wrote: the name is
    installed; [get_local_version] returns the version when it is a non-zero
    number and [None] when it is zero or [None]; the versions read for the
    other names are as before. *)
Theorem set_then_get_local_version (n : string) (v : option spec_float) (s : state) :
  get_plugin_install_status (self (exec (set_local_version n v) s)) n = true
  ∧ get_local_version (self (exec (set_local_version n v) s)) n
    = match v with
      | Some x => if SFeqb x float_zero then None else Some x
      | None => None
      end
  ∧ ∀ n', n' ≠ n →
      get_local_version (self (exec (set_local_version n v) s)) n'
      = get_local_version (self s) n'
      ∧ get_plugin_install_status (self (exec (set_local_version n v) s)) n'
        = get_plugin_install_status (self s) n'.
Proof.
  assert (Hvm : version_map (self (exec (set_local_version n v) s))
                = <[n := v]> (version_map (self s))).
  { unfold exec, set_local_version, save_local_version_map, get_self, get_fs,
      modify_self, modify_fs, raise, bind. simpl.
    by destruct (write_refused (fs s) "version.json"). }
  unfold get_plugin_install_status. rewrite !get_local_version_eq.
  unfold dict_get, dict_contains. rewrite !Hvm.
  split; [rewrite lookup_insert_eq; by apply bool_decide_eq_true_2|].
  split; [by rewrite lookup_insert_eq|].
  intros n' Hn'. rewrite !get_local_version_eq. unfold dict_get.
  rewrite Hvm. by rewrite !lookup_insert_ne by done.
Qed.
